(** * excel-matching: the browser front end (frontend/app.js)

    A shallow embedding of [escapeHtml] and [callMatch] and of the parts of
    the JavaScript and DOM semantics they rely on: UTF-16 strings, the
    values [JSON.parse] produces, truthiness, string conversion (which
    throws for an object whose own [toString] is no function), property
    access that throws on [null]/[undefined], [Array.prototype.map]/[join],
    [String.prototype.trim], [encodeURIComponent] and the serialisation of a
    text node by [innerHTML].  Display state is an explicit record threaded
    through a small state-and-exception monad, so that the [try]/[catch]/
    [finally] of [callMatch] reads as in the source. *)

From Stdlib Require Import ZArith NArith Ascii String Decimal Lia.
From stdpp Require Import base option list gmap.

Set Warnings "-register-all".
Local Open Scope N_scope.

(** ** Strings

    A JavaScript string is a sequence of 16-bit code units. *)

Abbreviation jsstring := (list N).

(** String literals of the source are written as they appear there; the
    file is UTF-8, and [js] turns the UTF-8 bytes of a literal into the
    UTF-16 code units the JavaScript engine holds. *)
Fixpoint utf16_of_utf8 (bs : list N) : jsstring :=
  match bs with
  | [] => []
  | b0 :: r0 =>
    if b0 <? 128 then b0 :: utf16_of_utf8 r0
    else match r0 with
    | [] => [65533]
    | b1 :: r1 =>
      if b0 <? 224 then
        N.lor (N.shiftl (N.land b0 31) 6) (N.land b1 63) :: utf16_of_utf8 r1
      else match r1 with
      | [] => [65533]
      | b2 :: r2 =>
        if b0 <? 240 then
          N.lor (N.shiftl (N.land b0 15) 12)
            (N.lor (N.shiftl (N.land b1 63) 6) (N.land b2 63))
          :: utf16_of_utf8 r2
        else match r2 with
        | [] => [65533]
        | b3 :: r3 =>
          let cp :=
            N.lor (N.shiftl (N.land b0 7) 18)
              (N.lor (N.shiftl (N.land b1 63) 12)
                 (N.lor (N.shiftl (N.land b2 63) 6) (N.land b3 63))) in
          (55296 + N.shiftr (cp - 65536) 10)
          :: (56320 + N.land (cp - 65536) 1023) :: utf16_of_utf8 r3
        end
      end
    end
  end.

Definition js (s : string) : jsstring :=
  utf16_of_utf8 (List.map N_of_ascii (list_ascii_of_string s)).
Arguments js s%_string.

(** The double quote, which the templates of the source contain. *)
Definition dq : jsstring := [34].

(** [Array.prototype.join] on an array of strings. *)
Fixpoint join (sep : jsstring) (parts : list jsstring) : jsstring :=
  match parts with
  | [] => []
  | [p] => p
  | p :: rest => p ++ sep ++ join sep rest
  end.

(** White space and line terminators, the code units [trim] removes. *)
Definition isWhiteSpace (c : N) : bool :=
  bool_decide (c ∈ [9; 10; 11; 12; 13; 32; 160; 5760; 8232; 8233; 8239; 8287;
                    12288; 65279])
  || ((8192 <=? c) && (c <=? 8202)).

Fixpoint trimStart (s : jsstring) : jsstring :=
  match s with
  | c :: s' => if isWhiteSpace c then trimStart s' else s
  | [] => []
  end.

Definition trimEnd (s : jsstring) : jsstring := reverse (trimStart (reverse s)).

Definition trim (s : jsstring) : jsstring := trimEnd (trimStart s).

(** ** Numbers

    A number is held the way [Number::toString] takes it apart: zero, an
    infinity, or [(-1)^negative * s * 10^(n - k)] with [k] the number of
    decimal digits of [s]; so [1.5] is [Finite false 15 1] and [1e21] is
    [Finite false 1 22].  Every double is of this form.  [JSON.parse] gives
    no NaN, and the sign of a zero shows neither in its truth value nor in
    its string. *)

Inductive number :=
  | Zero
  | Finite (negative : bool) (s : positive) (n : Z)
  | Infinity (negative : bool).

Fixpoint uint_units (d : Decimal.uint) : jsstring :=
  match d with
  | Nil => []
  | D0 d => 48 :: uint_units d
  | D1 d => 49 :: uint_units d
  | D2 d => 50 :: uint_units d
  | D3 d => 51 :: uint_units d
  | D4 d => 52 :: uint_units d
  | D5 d => 53 :: uint_units d
  | D6 d => 54 :: uint_units d
  | D7 d => 55 :: uint_units d
  | D8 d => 56 :: uint_units d
  | D9 d => 57 :: uint_units d
  end.

(** The decimal digits of a positive integer. *)
Definition digits (s : positive) : jsstring := uint_units (Pos.to_uint s).

Fixpoint dropZeros (ds : jsstring) : jsstring :=
  match ds with
  | d :: ds' => if d =? 48 then dropZeros ds' else ds
  | [] => []
  end.

(** The digits of [s] without its zeros at the end: [Number::toString]
    takes [k] as small as possible. *)
Definition significand (s : positive) : jsstring :=
  reverse (dropZeros (reverse (digits s))).

(** The exponent part [e+N] or [e-N]. *)
Definition exponentPart (e : Z) : jsstring :=
  101 :: (if (e <? 0)%Z then 45 else 43) :: uint_units (N.to_uint (Z.abs_N e)).

(** [Number::toString] in radix ten. *)
Definition NumberToString (x : number) : jsstring :=
  match x with
  | Zero => [48]
  | Infinity negative => (if negative then [45] else []) ++ js "Infinity"
  | Finite negative s n =>
    let ds := significand s in
    let k := Z.of_nat (length ds) in
    (if negative then [45] else [])
    ++ (if (k <=? n)%Z && (n <=? 21)%Z
        then ds ++ replicate (Z.to_nat (n - k)) 48
        else if (0 <? n)%Z && (n <=? 21)%Z
        then take (Z.to_nat n) ds ++ [46] ++ drop (Z.to_nat n) ds
        else if (-6 <? n)%Z && (n <=? 0)%Z
        then [48; 46] ++ replicate (Z.to_nat (- n)) 48 ++ ds
        else match ds with
             | [] => []
             | [d] => d :: exponentPart (n - 1)
             | d :: ds' => d :: 46 :: ds' ++ exponentPart (n - 1)
             end)
  end.

(** The number an integer is: array lengths and indices, and the integer
    literals of the source. *)
Definition integer (z : Z) : number :=
  match z with
  | Z0 => Zero
  | Zpos p => Finite false p (Z.of_nat (length (digits p)))
  | Zneg p => Finite true p (Z.of_nat (length (digits p)))
  end.

(** ** Values

    What [JSON.parse] can return, and [undefined].  An object is a finite
    map from its own property names to values. *)

Inductive value :=
  | VUndefined
  | VNull
  | VBool (b : bool)
  | VNum (x : number)
  | VStr (s : jsstring)
  | VArr (l : list value)
  | VObj (o : gmap jsstring value).

Definition isUndefined (v : value) : bool :=
  match v with VUndefined => true | _ => false end.

Definition isNullish (v : value) : bool :=
  match v with VUndefined | VNull => true | _ => false end.

(** [ToBoolean]: which values are truthy. *)
Definition ToBoolean (v : value) : bool :=
  match v with
  | VUndefined | VNull => false
  | VBool b => b
  | VNum x => match x with Zero => false | _ => true end
  | VStr s => negb (bool_decide (s = []))
  | VArr _ | VObj _ => true
  end.

(** ** Exceptions

    [None] is a thrown exception (a [TypeError], or the [URIError] of
    [encodeURIComponent]); the only handler of the source ignores which. *)

(** [ToString], as a template literal and the [textContent] setter apply
    it.  An object is converted by the method found under [toString]: the
    inherited one prints [[object Object]]; an own property of that name,
    which in parsed JSON is never a function, hides it, and the conversion
    throws (the inherited [valueOf] gives back the object, an own one is no
    function either).  An array prints its elements joined by commas, with
    [null] and [undefined] elements printed as nothing, and throws when an
    element does. *)
Fixpoint ToString (v : value) : option jsstring :=
  match v with
  | VUndefined => Some (js "undefined")
  | VNull => Some (js "null")
  | VBool true => Some (js "true")
  | VBool false => Some (js "false")
  | VNum x => Some (NumberToString x)
  | VStr s => Some s
  | VArr l =>
    join (js ",")
      <$> mapM (fun x => if isNullish x then Some [] else ToString x) l
  | VObj o =>
    if bool_decide (is_Some (o !! js "toString")) then None
    else Some (js "[object Object]")
  end.

(** [a || b] and [a ?? b] on operands already evaluated (the right operand
    is a literal wherever the source uses them). *)
Definition or_else (a b : value) : value := if ToBoolean a then a else b.
Definition coalesce (a b : value) : value := if isNullish a then b else a.

(** [v.k] for a data property name [k]: reading a property of [null] or
    [undefined] throws; a primitive or an array has none of the names the
    source reads. *)
Definition getProp (v : value) (k : jsstring) : option value :=
  match v with
  | VUndefined | VNull => None
  | VObj o => Some (default VUndefined (o !! k))
  | VBool _ | VNum _ | VStr _ | VArr _ => Some VUndefined
  end.

(** [v.length]. *)
Definition getLength (v : value) : option value :=
  match v with
  | VUndefined | VNull => None
  | VArr l => Some (VNum (integer (Z.of_nat (length l))))
  | VStr s => Some (VNum (integer (Z.of_nat (length s))))
  | VObj o => Some (default VUndefined (o !! js "length"))
  | VBool _ | VNum _ => Some VUndefined
  end.

(** [v[i]] for an array index [i]. *)
Definition getIndex (v : value) (i : nat) : option value :=
  match v with
  | VUndefined | VNull => None
  | VArr l => Some (default VUndefined (l !! i))
  | VStr s => Some (from_option (fun c => VStr [c]) VUndefined (s !! i))
  | VObj o =>
    Some (default VUndefined (o !! NumberToString (integer (Z.of_nat i))))
  | VBool _ | VNum _ => Some VUndefined
  end.

(** [a.map((v, i) => f v i)]: only an array has a [map] method, calling it on
    anything else throws; the callback may throw, which ends the loop. *)
Definition Array_map {B : Type} (f : value -> nat -> option B) (a : value)
  : option (list B) :=
  match a with
  | VArr l => mapM (fun p => f p.2 p.1) (imap pair l)
  | _ => None
  end.

(** An object literal, for writing responses down. *)
Definition obj (fields : list (jsstring * value)) : value :=
  VObj (list_to_map fields).

(** ** [escapeHtml]

    [d.textContent = s ?? E], with [E] the empty string, stores the string
    conversion of its operand in a fresh [div], and throws when the
    conversion does; [d.innerHTML] serialises that text node, which replaces
    the ampersand, the no-break space and the two angle brackets by
    character references and leaves every other code unit, the double quote
    included, as it is. *)

Definition escapeUnit (c : N) : jsstring :=
  if c =? 38 then js "&amp;"
  else if c =? 160 then js "&nbsp;"
  else if c =? 60 then js "&lt;"
  else if c =? 62 then js "&gt;"
  else [c].

Definition escapeHtml (s : value) : option jsstring :=
  textContent ← ToString (coalesce s (VStr []));
  Some (flat_map escapeUnit textContent).

(** ** The request *)

Definition isUnreserved (c : N) : bool :=
  ((65 <=? c) && (c <=? 90)) || ((97 <=? c) && (c <=? 122))
  || ((48 <=? c) && (c <=? 57))
  || bool_decide (c ∈ js "-_.!~*'()").

Definition hexDigit (n : N) : N := if n <? 10 then 48 + n else 55 + n.

Definition percent (b : N) : jsstring := [37; hexDigit (b / 16); hexDigit (b mod 16)].

Definition utf8 (cp : N) : list N :=
  if cp <? 128 then [cp]
  else if cp <? 2048 then [192 + cp / 64; 128 + cp mod 64]
  else if cp <? 65536 then
    [224 + cp / 4096; 128 + (cp / 64) mod 64; 128 + cp mod 64]
  else [240 + cp / 262144; 128 + (cp / 4096) mod 64;
        128 + (cp / 64) mod 64; 128 + cp mod 64].

(** [encodeURIComponent]: unreserved characters stay, every other code point
    becomes the percent-escapes of its UTF-8 bytes, and a surrogate without
    its partner throws a [URIError]. *)
Fixpoint encodeURIComponent (s : jsstring) : option jsstring :=
  match s with
  | [] => Some []
  | c :: s' =>
    if isUnreserved c then cons c <$> encodeURIComponent s'
    else if (c <? 55296) || (57343 <? c) then
      app (flat_map percent (utf8 c)) <$> encodeURIComponent s'
    else if c <? 56320 then
      match s' with
      | c2 :: s'' =>
        if (56320 <=? c2) && (c2 <=? 57343) then
          app (flat_map percent
                 (utf8 (65536 + (c - 55296) * 1024 + (c2 - 56320))))
            <$> encodeURIComponent s''
        else None
      | [] => None
      end
    else None
  end.

(** [API_BASE], from the port of the page's location. *)
Definition API_BASE (port : jsstring) : jsstring :=
  if bool_decide (port = js "8000") then [] else js "http://localhost:8000".

(** [const sheetName = (sheetNameInput.value || "ตารางไมวัน").trim()]: the
    value of a text input is a string, and the empty string is the only
    falsy one. *)
Definition sheetName (value : jsstring) : jsstring :=
  trim (if bool_decide (value = []) then js "ตารางไมวัน" else value).

Definition esgSheetName : jsstring := js "เงินรางวัลเรียกเก็บ ESG".
Definition matchKeyCol : number := integer 3.
Definition esgCols : jsstring := js "2,3,5,6,8,14,15".
Definition taxCols : jsstring := js "1,2,4,5,7,13,14".

Definition url (port value : jsstring) : option jsstring :=
  sheet_name ← encodeURIComponent (sheetName value);
  esg_sheet_name ← encodeURIComponent esgSheetName;
  esg_cols ← encodeURIComponent esgCols;
  tax_cols ← encodeURIComponent taxCols;
  Some (API_BASE port ++ js "/match-columns?sheet_name=" ++ sheet_name
        ++ js "&esg_sheet_name=" ++ esg_sheet_name
        ++ js "&esg_cols=" ++ esg_cols
        ++ js "&tax_cols=" ++ tax_cols
        ++ js "&match_key_col=" ++ NumberToString matchKeyCol
        ++ js "&case_sensitive=true").

(** ** Rendering a successful response *)

(** [const ok = r.cells_match && r.cells_match[i]]. *)
Definition cellOk (r : value) (i : nat) : option value :=
  cells_match ← getProp r (js "cells_match");
  if ToBoolean cells_match then getIndex cells_match i else Some cells_match.

(** [const tv = r.values_tax && r.values_tax[i] !== undefined
               ? r.values_tax[i] : E], with [E] the empty string. *)
Definition cellTv (r : value) (i : nat) : option value :=
  values_tax ← getProp r (js "values_tax");
  cond ← (if ToBoolean values_tax
          then x ← getIndex values_tax i; Some (VBool (negb (isUndefined x)))
          else Some values_tax);
  if ToBoolean cond then getIndex values_tax i else Some (VStr []).

(** [const title = !ok ? `ESG: ${v} | ภาษี: ${tv}` : E], with [E] the empty
    string; the template converts [v] and [tv] only when the cell is not
    [ok]. *)
Definition cellTitle (ok v tv : value) : option jsstring :=
  if negb (ToBoolean ok)
  then
    esg ← ToString v;
    tax ← ToString tv;
    Some (js "ESG: " ++ esg ++ js " | ภาษี: " ++ tax)
  else Some [].

Definition cellClass (ok : value) : jsstring :=
  if ToBoolean ok then js "cell-ok" else js "cell-warn".

(** The callback of [(r.values_esg || []).map((v, i) => ...)]. *)
Definition renderCell (r v : value) (i : nat) : option jsstring :=
  ok ← cellOk r i;
  tv ← cellTv r i;
  title ← cellTitle ok v tv;
  attribute ← (if ToBoolean (VStr title)
               then
                 text ← escapeHtml (VStr title);
                 Some (js " title=" ++ dq ++ text ++ dq)
               else Some []);
  text ← escapeHtml v;
  Some (js "<td class=" ++ dq ++ cellClass ok ++ dq ++ attribute
        ++ js ">" ++ text ++ js "</td>").

(** The list [cells] is joined from. *)
Definition cellList (r : value) : option (list jsstring) :=
  values_esg ← getProp r (js "values_esg");
  Array_map (renderCell r) (or_else values_esg (VArr [])).

(** The callback of [r.mismatches.map((m) => ...)]. *)
Definition renderMismatch (m : value) (_ : nat) : option jsstring :=
  column_label ← getProp m (js "column_label");
  label ← escapeHtml column_label;
  esg_value ← getProp m (js "esg_value");
  esg ← escapeHtml (or_else esg_value (VStr (js "(ว่าง)")));
  tax_value ← getProp m (js "tax_value");
  tax ← escapeHtml (or_else tax_value (VStr (js "(ว่าง)")));
  Some (js "<span class=" ++ dq ++ js "mismatch-label" ++ dq ++ js ">"
        ++ label
        ++ js "</span>: ESG=<strong>" ++ esg
        ++ js "</strong> ภาษี=<strong>" ++ tax
        ++ js "</strong>").

Definition mismatchHtml (r : value) : option jsstring :=
  mismatches ← getProp r (js "mismatches");
  len ← getLength (or_else mismatches (VArr []));
  if ToBoolean len
  then join (js " · ") <$> Array_map renderMismatch mismatches
  else Some (js "—").

Definition rowClass (all_match : value) : jsstring :=
  if ToBoolean all_match then js "row-ok" else js "row-warn".

(** The callback of [(results || []).map((r) => ...)]. *)
Definition renderRow (r : value) (_ : nat) : option jsstring :=
  all_match ← getProp r (js "all_match");
  cells ← join [] <$> cellList r;
  mismatches ← mismatchHtml r;
  row ← getProp r (js "row");
  ordinal ← ToString row;
  Some (js "<tr class=" ++ dq ++ rowClass all_match ++ dq ++ js "><td>"
        ++ ordinal ++ js "</td>" ++ cells
        ++ js "<td class=" ++ dq ++ js "mismatch-cell" ++ dq ++ js ">"
        ++ mismatches ++ js "</td></tr>").

Definition renderBody (results : value) : option jsstring :=
  join [] <$> Array_map renderRow (or_else results (VArr [])).

Definition renderThead (column_labels : value) : option jsstring :=
  ths ← Array_map
          (fun x _ => label ← escapeHtml x; Some (js "<th>" ++ label ++ js "</th>"))
          (or_else column_labels (VArr []));
  Some (js "<th>ลำดับ</th>" ++ join [] ths ++ js "<th>ข้อมูลที่ไม่ตรง</th>").

Definition nl (indent : nat) : jsstring := 10 :: replicate indent 32.

Definition renderSummary (summary match_key_label : value) : option jsstring :=
  total_rows ← getProp summary (js "total_rows");
  total ← ToString total_rows;
  all_match ← getProp summary (js "all_match");
  matching ← ToString all_match;
  has_mismatch ← getProp summary (js "has_mismatch");
  mismatching ← ToString has_mismatch;
  label ← escapeHtml (or_else match_key_label (VStr (js "เลขถัง")));
  Some (nl 6 ++ js "<p>รวมแถว: <strong>" ++ total
        ++ js "</strong> · ตรงทุกคอลัมน์ (แถวเขียว): <strong class="
        ++ dq ++ js "ok" ++ dq ++ js ">" ++ matching
        ++ js "</strong> · มีคอลัมน์ไม่ตรง (แถวเหลือง): <strong class="
        ++ dq ++ js "warn" ++ dq ++ js ">" ++ mismatching
        ++ js "</strong></p>"
        ++ nl 6 ++ js "<p class=" ++ dq ++ js "hint" ++ dq
        ++ js ">เงื่อนไขจับคู่แถว: <strong>" ++ label
        ++ js "</strong> เป็นตัวหลัก</p>" ++ nl 4).

(** ** Display state

    The elements [callMatch] writes to.  An [innerHTML] field holds the
    markup last assigned to it. *)

Record Dom := mkDom {
  btnMatch_disabled : bool;
  apiStatus_className : jsstring;
  apiStatus_textContent : jsstring;
  summaryEl_innerHTML : jsstring;
  resultThead_innerHTML : jsstring;
  resultBody_innerHTML : jsstring;
  resultSection_hidden : bool
}.

Definition set_btnMatch_disabled (b : bool) (d : Dom) : Dom :=
  mkDom b (apiStatus_className d) (apiStatus_textContent d)
    (summaryEl_innerHTML d) (resultThead_innerHTML d) (resultBody_innerHTML d)
    (resultSection_hidden d).

Definition set_apiStatus_className (c : jsstring) (d : Dom) : Dom :=
  mkDom (btnMatch_disabled d) c (apiStatus_textContent d)
    (summaryEl_innerHTML d) (resultThead_innerHTML d) (resultBody_innerHTML d)
    (resultSection_hidden d).

Definition set_apiStatus_textContent (t : jsstring) (d : Dom) : Dom :=
  mkDom (btnMatch_disabled d) (apiStatus_className d) t
    (summaryEl_innerHTML d) (resultThead_innerHTML d) (resultBody_innerHTML d)
    (resultSection_hidden d).

Definition set_summaryEl_innerHTML (h : jsstring) (d : Dom) : Dom :=
  mkDom (btnMatch_disabled d) (apiStatus_className d) (apiStatus_textContent d)
    h (resultThead_innerHTML d) (resultBody_innerHTML d)
    (resultSection_hidden d).

Definition set_resultThead_innerHTML (h : jsstring) (d : Dom) : Dom :=
  mkDom (btnMatch_disabled d) (apiStatus_className d) (apiStatus_textContent d)
    (summaryEl_innerHTML d) h (resultBody_innerHTML d)
    (resultSection_hidden d).

Definition set_resultBody_innerHTML (h : jsstring) (d : Dom) : Dom :=
  mkDom (btnMatch_disabled d) (apiStatus_className d) (apiStatus_textContent d)
    (summaryEl_innerHTML d) (resultThead_innerHTML d) h
    (resultSection_hidden d).

Definition set_resultSection_hidden (b : bool) (d : Dom) : Dom :=
  mkDom (btnMatch_disabled d) (apiStatus_className d) (apiStatus_textContent d)
    (summaryEl_innerHTML d) (resultThead_innerHTML d) (resultBody_innerHTML d)
    b.

(** Statements that write to the display and may throw: the state reached
    so far is kept when an exception is thrown, for the handler to go on
    from. *)
Definition M (A : Type) : Type := Dom -> option A * Dom.

#[global] Instance M_ret : MRet M := fun A a d => (Some a, d).

#[global] Instance M_bind : MBind M := fun A B f m d =>
  match m d with
  | (Some a, d') => f a d'
  | (None, d') => (None, d')
  end.

(** An expression that may throw, evaluated inside a statement. *)
Definition eval {A : Type} (e : option A) : M A := fun d => (e, d).

(** An assignment to a property of an element. *)
Definition assign (set : Dom -> Dom) : M unit := fun d => (Some tt, set d).

(** ** [callMatch] *)

Record File := mkFile { name : jsstring }.

(** What [await fetch(url, ...)] and [res.json()] come to: [fetch] throws,
    or there is a response with its [ok] flag and a body that parses to a
    value or does not. *)
Inductive FetchOutcome :=
  | FetchThrows
  | Response (ok : bool) (json : option value).

(** The statements of the success branch, after the [if (!res.ok)]. *)
Definition showResult (data : value) : M unit :=
  assign (set_apiStatus_className (js "status success"));;
  assign (set_apiStatus_textContent (js "เทียบข้อมูลเสร็จแล้ว"));;
  column_labels ← eval (getProp data (js "column_labels"));
  match_key_label ← eval (getProp data (js "match_key_label"));
  summary ← eval (getProp data (js "summary"));
  results ← eval (getProp data (js "results"));
  summaryHtml ← eval (renderSummary summary match_key_label);
  assign (set_summaryEl_innerHTML summaryHtml);;
  theadHtml ← eval (renderThead column_labels);
  assign (set_resultThead_innerHTML theadHtml);;
  bodyHtml ← eval (renderBody results);
  assign (set_resultBody_innerHTML bodyHtml);;
  assign (set_resultSection_hidden false).

(** The body of the [try] block. *)
Definition tryBlock (outcome : FetchOutcome) : M unit :=
  match outcome with
  | FetchThrows => eval None
  | Response ok json =>
    let data := default (VObj ∅) json in
    if negb ok then
      assign (set_apiStatus_className (js "status error"));;
      detail ← eval (getProp data (js "detail"));
      text ← eval (ToString (or_else detail (VStr (js "เกิดข้อผิดพลาด"))));
      assign (set_apiStatus_textContent text)
    else showResult data
  end.

Definition catchBlock : M unit :=
  assign (set_apiStatus_className (js "status error"));;
  assign (set_apiStatus_textContent (js "เชื่อมต่อ API ไม่ได้")).

Definition finallyBlock : M unit :=
  assign (set_btnMatch_disabled false).

(** [try B catch (e) C finally F], for a handler and a finaliser that do not
    throw. *)
Definition tryCatchFinally (B C F : M unit) : M unit := fun d =>
  match B d with
  | (Some _, d') => F d'
  | (None, d') => (C;; F) d'
  end.

(** [callMatch], run to completion on a display [d]: the files chosen (if
    any), the port of the page, the text of the sheet-name input, and the
    answer of the service to a request.  The result is the display when the
    function is done; [None] for its value is an exception that leaves the
    function (the promise it returned is rejected). *)
Definition callMatch (esgFile taxFile : option File) (port value : jsstring)
    (fetch : jsstring -> File -> File -> FetchOutcome) : M unit :=
  match esgFile, taxFile with
  | Some esg_file, Some tax_file =>
    assign (set_btnMatch_disabled true);;
    assign (set_apiStatus_className (js "status loading"));;
    assign (set_apiStatus_textContent (js "กำลังเทียบข้อมูล..."));;
    u ← eval (url port value);
    tryCatchFinally (tryBlock (fetch u esg_file tax_file)) catchBlock finallyBlock
  | _, _ => mret tt
  end.

(** ** Notions of the statements *)

(** The number of occurrences of a code unit in a string. *)
Fixpoint occ (c : N) (s : jsstring) : nat :=
  match s with
  | [] => 0%nat
  | x :: s' => ((if N.eqb x c then 1 else 0) + occ c s')%nat
  end.

(** The display while the request is outstanding. *)
Definition loading (d : Dom) : Dom :=
  set_apiStatus_textContent (js "กำลังเทียบข้อมูล...")
    (set_apiStatus_className (js "status loading")
       (set_btnMatch_disabled true d)).

(** An error outcome: [fetch] threw, or the response has a failure status. *)
Definition errorOutcome (o : FetchOutcome) : Prop :=
  match o with
  | FetchThrows => True
  | Response ok _ => ok = false
  end.



(** A string as text of an element: the serialisation of a text node. *)
Definition escaped (s : jsstring) : jsstring := flat_map escapeUnit s.

(** An entry of [mismatches] as the service sends it, with its three
    strings. *)
Record Mismatch := mkMismatch {
  column_label : jsstring;
  esg_value : jsstring;
  tax_value : jsstring
}.

Definition mismatchObject (m : Mismatch) : value :=
  obj [(js "column_label", VStr (column_label m));
       (js "esg_value", VStr (esg_value m));
       (js "tax_value", VStr (tax_value m))].

(** A value of a mismatch, or the marker when it is empty. *)
Definition orMarker (s : jsstring) : jsstring :=
  if bool_decide (s = []) then js "(ว่าง)" else s.

(** The text of an entry with these fields: the label, then the ESG and
    the tax value, each replaced by the marker when it is empty. *)
Definition mismatchText (m : Mismatch) : jsstring :=
  js "<span class=" ++ dq ++ js "mismatch-label" ++ dq ++ js ">"
  ++ escaped (column_label m)
  ++ js "</span>: ESG=<strong>" ++ escaped (orMarker (esg_value m))
  ++ js "</strong> ภาษี=<strong>" ++ escaped (orMarker (tax_value m))
  ++ js "</strong>".

(** A row of the results as the service sends it: the ordinal, the flag of
    the row, the values of the two workbooks, the flags of the cells and
    the mismatches. *)
Record RowResult := mkRowResult {
  row : number;
  all_match : bool;
  values_esg : list jsstring;
  values_tax : list jsstring;
  cells_match : list bool;
  mismatches : list Mismatch
}.

Definition rowObject (rr : RowResult) : value :=
  obj [(js "row", VNum (row rr));
       (js "all_match", VBool (all_match rr));
       (js "values_esg", VArr (VStr <$> values_esg rr));
       (js "values_tax", VArr (VStr <$> values_tax rr));
       (js "cells_match", VArr (VBool <$> cells_match rr));
       (js "mismatches", VArr (mismatchObject <$> mismatches rr))].




(** ** Sample inputs *)

Definition display0 : Dom := mkDom true [] [] [] [] [] true.
Definition file0 : File := mkFile (js "a.xlsx").

(** The two rows of a response with one matching and one mismatching row. *)
Definition rowMatch : value :=
  obj [(js "row", VNum (integer 1)); (js "all_match", VBool true);
       (js "values_esg", VArr [VStr (js "x")]);
       (js "values_tax", VArr [VStr (js "x")]);
       (js "cells_match", VArr [VBool true]);
       (js "mismatches", VArr [])].

Definition rowMismatch : value :=
  obj [(js "row", VNum (integer 2)); (js "all_match", VBool false);
       (js "values_esg", VArr [VStr (js "x")]);
       (js "values_tax", VArr [VStr (js "y")]);
       (js "cells_match", VArr [VBool false]);
       (js "mismatches",
        VArr [obj [(js "column_label", VStr (js "A"));
                   (js "esg_value", VStr (js "x"));
                   (js "tax_value", VStr (js "y"))]])].

(** A row without [values_tax] and without [cells_match]. *)
Definition rowBare : value :=
  obj [(js "row", VNum (integer 1)); (js "all_match", VBool false);
       (js "values_esg", VArr [VStr (js "x"); VStr (js "y")])].

(** A row of the response with a mismatched cell whose tax value is
    [null]. *)
Definition rowNullTax : value :=
  obj [(js "row", VNum (integer 1)); (js "all_match", VBool false);
       (js "values_esg", VArr [VStr (js "x")]);
       (js "values_tax", VArr [VNull]);
       (js "cells_match", VArr [VBool false]);
       (js "mismatches", VArr [])].

(** A row whose ordinal is a string with markup, and a summary whose total
    is one. *)
Definition rowMarkupOrdinal : value :=
  obj [(js "row", VStr (js "<b>")); (js "all_match", VBool true);
       (js "values_esg", VArr []); (js "mismatches", VArr [])].

Definition summaryMarkup : value :=
  obj [(js "total_rows", VStr (js "<i>")); (js "all_match", VNum (integer 0));
       (js "has_mismatch", VNum (integer 0))].

(** A row with a mismatched cell whose ESG value holds double quotes. *)
Definition quoted : jsstring := dq ++ js " onclick=" ++ dq ++ js "x".

Definition rowQuote : value :=
  obj [(js "row", VNum (integer 1)); (js "all_match", VBool false);
       (js "values_esg", VArr [VStr quoted]);
       (js "values_tax", VArr [VStr (js "y")]);
       (js "cells_match", VArr [VBool false]);
       (js "mismatches",
        VArr [obj [(js "column_label", VStr (js "A"));
                   (js "esg_value", VStr quoted);
                   (js "tax_value", VStr (js "y"))]])].

(** An object that cannot be converted to a string. *)
Definition unprintable : value := obj [(js "toString", VNum (integer 1))].

(** The two rows above as the service describes them. *)
Definition resultMatch : RowResult :=
  mkRowResult (integer 1) true [js "x"] [js "x"] [true] [].

Definition resultMismatch : RowResult :=
  mkRowResult (integer 2) false [js "x"] [js "y"] [false]
    [mkMismatch (js "A") (js "x") (js "y")].

(** ** The page: file inputs, their handlers and the events

    The file inputs with the files chosen, the two name labels, the
    sheet-name input and the display; [pending] counts the calls of
    [callMatch] that wait for their response. *)

Record Page := mkPage {
  esgInput_files : list File;
  taxInput_files : list File;
  esgName_textContent : jsstring;
  taxName_textContent : jsstring;
  sheetNameInput_value : jsstring;
  display : Dom;
  pending : nat
}.

Definition set_esgInput_files (files : list File) (p : Page) : Page :=
  mkPage files (taxInput_files p) (esgName_textContent p)
    (taxName_textContent p) (sheetNameInput_value p) (display p) (pending p).

Definition set_taxInput_files (files : list File) (p : Page) : Page :=
  mkPage (esgInput_files p) files (esgName_textContent p)
    (taxName_textContent p) (sheetNameInput_value p) (display p) (pending p).

Definition set_esgName_textContent (t : jsstring) (p : Page) : Page :=
  mkPage (esgInput_files p) (taxInput_files p) t
    (taxName_textContent p) (sheetNameInput_value p) (display p) (pending p).

Definition set_taxName_textContent (t : jsstring) (p : Page) : Page :=
  mkPage (esgInput_files p) (taxInput_files p) (esgName_textContent p)
    t (sheetNameInput_value p) (display p) (pending p).

Definition set_sheetNameInput_value (v : jsstring) (p : Page) : Page :=
  mkPage (esgInput_files p) (taxInput_files p) (esgName_textContent p)
    (taxName_textContent p) v (display p) (pending p).

Definition set_display (d : Dom) (p : Page) : Page :=
  mkPage (esgInput_files p) (taxInput_files p) (esgName_textContent p)
    (taxName_textContent p) (sheetNameInput_value p) d (pending p).

Definition set_pending (n : nat) (p : Page) : Page :=
  mkPage (esgInput_files p) (taxInput_files p) (esgName_textContent p)
    (taxName_textContent p) (sheetNameInput_value p) (display p) n.

(** [setFileName(el, file)], with the element given by the setter of its
    text; [file] is a [File] or [undefined]. *)
Definition setFileName (el_textContent : jsstring -> Page -> Page)
    (file : option File) : Page -> Page :=
  el_textContent
    (match file with Some f => name f | None => js "ยังไม่ได้เลือก" end).

(** [checkCanMatch]: the lengths of the two file lists are numbers, and
    [&&] gives the first when it is zero. *)
Definition checkCanMatch (p : Page) : Page :=
  let esg_length := VNum (integer (Z.of_nat (length (esgInput_files p)))) in
  let tax_length := VNum (integer (Z.of_nat (length (taxInput_files p)))) in
  let both := if ToBoolean esg_length then tax_length else esg_length in
  set_display (set_btnMatch_disabled (negb (ToBoolean both)) (display p)) p.

(** The two [change] listeners. *)
Definition onEsgChange (p : Page) : Page :=
  checkCanMatch (setFileName set_esgName_textContent (head (esgInput_files p)) p).

Definition onTaxChange (p : Page) : Page :=
  checkCanMatch (setFileName set_taxName_textContent (head (taxInput_files p)) p).

(** [callMatch] on the page, up to its [await]: without both files it
    returns; otherwise it shows the loading state and builds the URL, and
    when that does not throw the request is sent and the call waits. *)
Definition callMatchStart (port : jsstring) (p : Page) : Page :=
  match head (esgInput_files p), head (taxInput_files p) with
  | Some esg_file, Some tax_file =>
    let p1 := set_display (loading (display p)) p in
    match url port (sheetNameInput_value p) with
    | Some u => set_pending (S (pending p)) p1
    | None => p1
    end
  | _, _ => p
  end.

(** [callMatch] from its [await] on, with the answer to the request. *)
Definition callMatchResume (outcome : FetchOutcome) (p : Page) : Page :=
  set_pending (Nat.pred (pending p))
    (set_display
       (tryCatchFinally (tryBlock outcome) catchBlock finallyBlock
          (display p)).2 p).

(** What happens to the page: the user picks files or types a sheet name,
    clicks the button (a disabled button gets no click), or a request that
    is waited for is answered. *)
Inductive Event :=
  | EsgChange (files : list File)
  | TaxChange (files : list File)
  | SheetNameInput (value : jsstring)
  | Click
  | Settle (outcome : FetchOutcome).

Definition step (port : jsstring) (p : Page) (ev : Event) : Page :=
  match ev with
  | EsgChange files => onEsgChange (set_esgInput_files files p)
  | TaxChange files => onTaxChange (set_taxInput_files files p)
  | SheetNameInput value => set_sheetNameInput_value value p
  | Click =>
    if btnMatch_disabled (display p) then p else callMatchStart port p
  | Settle outcome =>
    match pending p with
    | O => p
    | S _ => callMatchResume outcome p
    end
  end.

Definition run (port : jsstring) (p : Page) (events : list Event) : Page :=
  foldl (step port) p events.

(** The labels of the two inputs agree with the files chosen. *)
Definition labelsShown (p : Page) : Prop :=
  esgName_textContent p =
    match head (esgInput_files p) with
    | Some f => name f | None => js "ยังไม่ได้เลือก" end /\
  taxName_textContent p =
    match head (taxInput_files p) with
    | Some f => name f | None => js "ยังไม่ได้เลือก" end.

Definition isChange (ev : Event) : bool :=
  match ev with
  | EsgChange _ | TaxChange _ => true
  | _ => false
  end.

(** While a request is waited for the button is disabled, and there is at
    most one such request. *)
Definition oneRequest (p : Page) : Prop :=
  (pending p <= 1)%nat /\
  (pending p = 1%nat -> btnMatch_disabled (display p) = true).

(** ** Which responses render

    Shapes with which the rendering code does not throw: the values that
    are printed are primitives, so that their string conversion exists. *)

Definition isPrimitive (v : value) : bool :=
  match v with
  | VArr _ | VObj _ => false
  | _ => true
  end.

Definition isArray (v : value) : bool :=
  match v with
  | VArr _ => true
  | _ => false
  end.

(** A primitive, or an array of primitives. *)
Definition primitives (v : value) : bool :=
  match v with
  | VArr l => forallb isPrimitive l
  | VObj _ => false
  | _ => true
  end.

(** An array of primitives, or a falsy value (which [|| []] replaces by no
    entries). *)
Definition primitiveArrayOrFalsy (v : value) : bool :=
  match v with
  | VArr l => forallb isPrimitive l
  | _ => negb (ToBoolean v)
  end.

(** A value that is not [null] or [undefined] and, when it is an object,
    holds primitives under the names that are read. *)
Definition fieldsPrimitive (keys : list jsstring) (v : value) : bool :=
  match v with
  | VUndefined | VNull => false
  | VObj o => forallb (fun k => isPrimitive (default VUndefined (o !! k))) keys
  | _ => true
  end.

(** [mismatches]: falsy, without a truthy [length], or an array of such
    entries. *)
Definition mismatchesRender (mm : value) : bool :=
  match mm with
  | VArr l =>
    forallb
      (fieldsPrimitive [js "column_label"; js "esg_value"; js "tax_value"]) l
  | VStr s => bool_decide (s = [])
  | VObj o => negb (ToBoolean (default VUndefined (o !! js "length")))
  | VUndefined | VNull | VBool _ | VNum _ => true
  end.

Definition rowRenders (r : value) : bool :=
  match getProp r (js "values_esg"), getProp r (js "values_tax"),
        getProp r (js "mismatches"), getProp r (js "row") with
  | Some values_esg, Some values_tax, Some mismatches, Some row =>
    primitiveArrayOrFalsy values_esg && primitives values_tax
    && mismatchesRender mismatches && isPrimitive row
  | _, _, _, _ => false
  end.

Definition resultsRender (results : value) : bool :=
  match results with
  | VArr l => forallb rowRenders l
  | _ => negb (ToBoolean results)
  end.

Definition responseRenders (data : value) : bool :=
  match getProp data (js "column_labels"), getProp data (js "match_key_label"),
        getProp data (js "summary"), getProp data (js "results") with
  | Some column_labels, Some match_key_label, Some summary, Some results =>
    fieldsPrimitive [js "total_rows"; js "all_match"; js "has_mismatch"] summary
    && isPrimitive match_key_label
    && primitiveArrayOrFalsy column_labels
    && resultsRender results
  | _, _, _, _ => false
  end.

(** The three pieces of markup of a response, when all of them render. *)
Definition renderAll (data : value) : option (jsstring * jsstring * jsstring) :=
  column_labels ← getProp data (js "column_labels");
  match_key_label ← getProp data (js "match_key_label");
  summary ← getProp data (js "summary");
  results ← getProp data (js "results");
  summaryHtml ← renderSummary summary match_key_label;
  theadHtml ← renderThead column_labels;
  bodyHtml ← renderBody results;
  Some (summaryHtml, theadHtml, bodyHtml).

(** Code units that are not surrogates, which [encodeURIComponent] can
    always encode. *)
Definition notSurrogate (c : N) : bool := (c <? 55296) || (57343 <? c).

(** A 16-bit code unit, which is what a string of the page is made of. *)
Definition isCodeUnit (c : N) : bool := c <? 65536.

(** What an encoded component is made of: unreserved characters and the
    percent sign (the digits of an escape are unreserved themselves). *)
Definition isEncoded (c : N) : bool := isUnreserved c || (c =? 37).

(** Pages to start from. *)
Definition page0 : Page := mkPage [] [] [] [] [] display0 0.

Definition pageReady : Page :=
  mkPage [file0] [file0] (js "a.xlsx") (js "a.xlsx") [] 
    (set_btnMatch_disabled false display0) 0.

(** Literals are kept folded in proofs and evaluated where needed. *)
#[global] Opaque js dq.

(** * Properties *)

(** ** Counting a code unit in a string *)

Ltac count_literals :=
  repeat match goal with
  | |- context [occ ?k (js ?s)] =>
    let n := eval vm_compute in (occ k (js s)) in
    replace (occ k (js s)) with n by (vm_compute; reflexivity)
  | |- context [occ ?k dq] =>
    replace (occ k dq) with 0%nat by (vm_compute; reflexivity)
  end.

Lemma occ_app c s t : occ c (s ++ t) = (occ c s + occ c t)%nat.
Proof. induction s as [|x s IH]; simpl; [done | rewrite IH; lia]. Qed.

Lemma occ_flat_map_zero {A} c (f : A -> jsstring) l :
  (forall x, occ c (f x) = 0%nat) -> occ c (flat_map f l) = 0%nat.
Proof.
  intros Hf. induction l as [|x l IH]; simpl; [done|].
  by rewrite occ_app, Hf, IH.
Qed.

Lemma escapeUnit_no_angle c k :
  k = 60 \/ k = 62 -> occ k (escapeUnit c) = 0%nat.
Proof.
  intros Hk. unfold escapeUnit.
  repeat case_match; try (destruct Hk as [-> | ->]; reflexivity).
  simpl. destruct (c =? k) eqn:E; [|done].
  apply N.eqb_eq in E. subst c. destruct Hk as [-> | ->]; done.
Qed.

(** ** String conversion *)

(** Numbers print as in JavaScript: integers in digits up to twenty-one of
    them, larger and very small numbers with an exponent, fractions with a
    decimal point. *)
Lemma NumberToString_samples :
  NumberToString (integer 3) = js "3" /\
  NumberToString (integer (-45)) = js "-45" /\
  NumberToString (integer 120) = js "120" /\
  NumberToString (integer (10 ^ 20)) = js "100000000000000000000" /\
  NumberToString (integer (10 ^ 21)) = js "1e+21" /\
  NumberToString (Finite false 15 1) = js "1.5" /\
  NumberToString (Finite false 12345 3) = js "123.45" /\
  NumberToString (Finite true 15 (-5)) = js "-0.0000015" /\
  NumberToString (Finite false 15 (-6)) = js "1.5e-7" /\
  NumberToString (Finite false 12 22) = js "1.2e+21" /\
  NumberToString (Infinity true) = js "-Infinity".
Proof. repeat apply conj; vm_compute; reflexivity. Qed.

(** An object prints as [[object Object]] unless it has an own [toString],
    with which the conversion throws; an array prints its elements, and
    throws when one of them does. *)
Lemma ToString_samples :
  ToString (VObj ∅) = Some (js "[object Object]") /\
  ToString unprintable = None /\
  ToString (VArr [VNull; VStr (js "a"); VArr [VNum (integer 1); VUndefined]])
    = Some (js ",a,1,") /\
  ToString (VArr [VStr (js "a"); unprintable]) = None /\
  escapeHtml unprintable = None.
Proof. repeat apply conj; vm_compute; reflexivity. Qed.

(** ** [escapeHtml] *)

Lemma escapeHtml_string s : escapeHtml (VStr s) = Some (escaped s).
Proof. reflexivity. Qed.

Lemma escapeHtml_Some v h :
  escapeHtml v = Some h ->
  exists t, ToString (coalesce v (VStr [])) = Some t /\ h = escaped t.
Proof.
  unfold escapeHtml. intros H.
  destruct (ToString (coalesce v (VStr []))) as [t|]; [|done].
  apply (inj Some) in H. eauto.
Qed.

Lemma escapeHtml_no_angle v h k :
  k = 60 \/ k = 62 -> escapeHtml v = Some h -> occ k h = 0%nat.
Proof.
  intros Hk H. apply escapeHtml_Some in H as (t & _ & ->).
  apply occ_flat_map_zero. intros c. by apply escapeUnit_no_angle.
Qed.

Lemma ToString_primitive v : isPrimitive v = true -> is_Some (ToString v).
Proof. destruct v as [| |[]| | | |]; intros H; try done; by eexists. Qed.

Lemma escapeHtml_primitive v : isPrimitive v = true -> is_Some (escapeHtml v).
Proof. destruct v as [| |[]| | | |]; intros H; try done; by eexists. Qed.

(** C9: [escapeHtml] returns the empty string on [undefined] and on [null]
    (so neither of the texts "undefined" and "null"), and on a string it
    returns the string with each ampersand, no-break space and angle bracket
    replaced by its character reference and every other code unit kept; it
    returns for every primitive value, and no angle bracket is left in any
    result. *)
Theorem escapeHtml_total :
  escapeHtml VUndefined = Some [] /\ escapeHtml VNull = Some [] /\
  (forall s, escapeHtml (VStr s) = Some (flat_map escapeUnit s)) /\
  escapeUnit 38 = js "&amp;" /\ escapeUnit 60 = js "&lt;" /\
  escapeUnit 62 = js "&gt;" /\ escapeUnit 160 = js "&nbsp;" /\
  (forall c, c ∉ [38; 60; 62; 160] -> escapeUnit c = [c]) /\
  (forall v, isPrimitive v = true -> is_Some (escapeHtml v)) /\
  (forall v h, escapeHtml v = Some h -> occ 60 h = 0%nat /\ occ 62 h = 0%nat).
Proof.
  repeat split; try reflexivity.
  - intros c Hc. unfold escapeUnit.
    repeat match goal with
    | |- context [N.eqb c ?k] =>
      destruct (N.eqb_spec c k) as [->|?]; [exfalso; apply Hc; set_solver|]
    end.
    done.
  - apply escapeHtml_primitive.
  - apply (escapeHtml_no_angle v); [by left | done].
  - apply (escapeHtml_no_angle v); [by right | done].
Qed.

Lemma escapeHtml_total_witness :
  (97 ∉ [38; 60; 62; 160]) /\ escapeUnit 97 = [97].
Proof.
  assert (Hc : 97 ∉ [38; 60; 62; 160]).
  { intros Hin. repeat (apply elem_of_cons in Hin as [Hin | Hin]; [discriminate|]).
    by apply elem_of_nil in Hin. }
  split; [exact Hc|].
  exact (proj1 (proj2 (proj2 (proj2 (proj2 (proj2 (proj2 (proj2
           escapeHtml_total))))))) 97 Hc).
Defined.

(** ** The request *)

Lemma trim_whitespace s :
  forallb isWhiteSpace s = true -> trim s = [].
Proof.
  intros Hs. unfold trim.
  assert (trimStart s = []) as ->.
  { induction s as [|c s IH]; simpl in *; [done|].
    apply andb_prop in Hs as [-> Hs]. by apply IH. }
  reflexivity.
Qed.

(** C1: a sheet-name input of three spaces is truthy, so the default is not
    taken, and trimming then leaves the empty string: the request is sent
    with a blank [sheet_name] parameter.  The same holds for every
    non-empty input made of white space only. *)
Theorem sheetName_blank_on_whitespace :
  sheetName (js "   ") = [] /\
  url (js "8000") (js "   ") =
    Some (js "/match-columns?sheet_name=&esg_sheet_name=%E0%B9%80%E0%B8%87%E0%B8%B4%E0%B8%99%E0%B8%A3%E0%B8%B2%E0%B8%87%E0%B8%A7%E0%B8%B1%E0%B8%A5%E0%B9%80%E0%B8%A3%E0%B8%B5%E0%B8%A2%E0%B8%81%E0%B9%80%E0%B8%81%E0%B9%87%E0%B8%9A%20ESG&esg_cols=2%2C3%2C5%2C6%2C8%2C14%2C15&tax_cols=1%2C2%2C4%2C5%2C7%2C13%2C14&match_key_col=3&case_sensitive=true") /\
  (forall c s, forallb isWhiteSpace (c :: s) = true -> sheetName (c :: s) = []).
Proof.
  split; [reflexivity|]. split; [vm_compute; reflexivity|].
  intros c s Hs. unfold sheetName.
  rewrite bool_decide_eq_false_2 by done. by apply trim_whitespace.
Qed.

Lemma sheetName_blank_on_whitespace_witness :
  forallb isWhiteSpace [9; 160] = true /\ sheetName [9; 160] = [].
Proof.
  split; [reflexivity|].
  exact (proj2 (proj2 sheetName_blank_on_whitespace) 9 [160] eq_refl).
Defined.

(** The part of sheet-name resolution that holds: an empty input is
    replaced by the default name, and an input with a character that is
    not white space keeps a non-empty name. *)
Lemma sheetName_empty : sheetName [] = js "ตารางไมวัน".
Proof. reflexivity. Qed.

Lemma trimStart_keeps s c :
  c ∈ s -> isWhiteSpace c = false -> c ∈ trimStart s.
Proof.
  intros Hin Hc. induction s as [|x s IH]; simpl; [done|].
  destruct (isWhiteSpace x) eqn:Hx; [|done].
  apply elem_of_cons in Hin as [-> | Hin]; [congruence | by apply IH].
Qed.

Lemma trim_keeps s c :
  c ∈ s -> isWhiteSpace c = false -> c ∈ trim s.
Proof.
  intros Hin Hc. unfold trim, trimEnd.
  apply elem_of_reverse, trimStart_keeps; [|done].
  by apply elem_of_reverse, trimStart_keeps.
Qed.

Lemma sheetName_nonblank value c :
  c ∈ value -> isWhiteSpace c = false -> sheetName value <> [].
Proof.
  intros Hin Hc. unfold sheetName.
  case_bool_decide as Hv; [by subst; apply elem_of_nil in Hin|].
  intros Heq. pose proof (trim_keeps _ _ Hin Hc) as Hk.
  rewrite Heq in Hk. by apply elem_of_nil in Hk.
Qed.

(** ** The outcomes of [callMatch] *)

Lemma callMatch_requests esg_file tax_file port value fetch u d :
  url port value = Some u ->
  callMatch (Some esg_file) (Some tax_file) port value fetch d =
  tryCatchFinally (tryBlock (fetch u esg_file tax_file)) catchBlock
    finallyBlock (loading d).
Proof.
  intros Hu. unfold callMatch, mbind, M_bind, assign, eval. simpl.
  by rewrite Hu.
Qed.

(** Without both files nothing happens at all. *)
Lemma callMatch_no_file esg_file tax_file port value fetch d :
  esg_file = None \/ tax_file = None ->
  callMatch esg_file tax_file port value fetch d = (Some tt, d).
Proof. intros [-> | ->]; [|destruct esg_file]; reflexivity. Qed.


(** C4: when the request ends in an error (the status is not a success, or
    [fetch] threw), the summary, the header row, the body rows and the
    visibility of the result section are what they were before the action,
    the button is enabled again, and nothing but the status element, which
    shows an error, has changed. *)
Theorem error_keeps_display esg_file tax_file port value fetch u d :
  url port value = Some u ->
  errorOutcome (fetch u esg_file tax_file) ->
  exists text,
    (callMatch (Some esg_file) (Some tax_file) port value fetch d).2 =
    mkDom false (js "status error") text
      (summaryEl_innerHTML d) (resultThead_innerHTML d)
      (resultBody_innerHTML d) (resultSection_hidden d).
Proof.
  intros Hu Herr. rewrite (callMatch_requests _ _ _ _ _ _ _ Hu).
  destruct (fetch u esg_file tax_file) as [|ok json]; simpl in Herr.
  - by eexists.
  - subst ok. unfold tryCatchFinally, tryBlock. simpl.
    unfold mbind, M_bind, assign, eval. simpl.
    destruct (getProp (default (VObj ∅) json) (js "detail")) as [detail|];
      [|by eexists].
    destruct (ToString (or_else detail (VStr (js "เกิดข้อผิดพลาด"))));
      by eexists.
Qed.

Lemma error_keeps_display_witness :
  let fetch := fun _ _ _ =>
    Response false (Some (obj [(js "detail", VStr (js "bad file"))])) in
  let shown := set_resultBody_innerHTML (js "<tr></tr>")
                 (set_resultSection_hidden false display0) in
  let d' := (callMatch (Some file0) (Some file0) (js "8000") [] fetch shown).2 in
  resultBody_innerHTML d' = js "<tr></tr>" /\
  resultSection_hidden d' = false /\ btnMatch_disabled d' = false.
Proof.
  intros fetch shown d'.
  destruct (url (js "8000") []) as [u|] eqn:Hu; [|by vm_compute in Hu].
  destruct (error_keeps_display file0 file0 (js "8000") [] fetch u shown Hu
              eq_refl) as [text Hd'].
  subst d'. rewrite Hd'. repeat split.
Defined.

(** ** The status text of an error *)

(** What a failure status shows, for a payload whose [detail] can be read
    and converted: the text of [detail] when it is truthy, the generic
    error text when it is falsy or absent. *)
Lemma failure_status_text json detail text d :
  getProp (default (VObj ∅) json) (js "detail") = Some detail ->
  ToString (or_else detail (VStr (js "เกิดข้อผิดพลาด"))) = Some text ->
  tryCatchFinally (tryBlock (Response false json)) catchBlock finallyBlock d =
  (Some tt,
   mkDom false (js "status error") text
     (summaryEl_innerHTML d) (resultThead_innerHTML d)
     (resultBody_innerHTML d) (resultSection_hidden d)).
Proof.
  intros Hd Ht. unfold tryCatchFinally, tryBlock. simpl.
  unfold mbind, M_bind, assign, eval. simpl. rewrite Hd. simpl. by rewrite Ht.
Qed.

(** What it shows when reading or converting [detail] throws: the handler
    runs, and the text is the one of a failed connection. *)
Lemma failure_status_throws json d :
  (detail ← getProp (default (VObj ∅) json) (js "detail");
   ToString (or_else detail (VStr (js "เกิดข้อผิดพลาด")))) = None ->
  tryCatchFinally (tryBlock (Response false json)) catchBlock finallyBlock d =
  (Some tt,
   mkDom false (js "status error") (js "เชื่อมต่อ API ไม่ได้")
     (summaryEl_innerHTML d) (resultThead_innerHTML d)
     (resultBody_innerHTML d) (resultSection_hidden d)).
Proof.
  intros H. unfold tryCatchFinally, tryBlock. simpl.
  unfold mbind, M_bind, assign, eval. simpl.
  destruct (getProp (default (VObj ∅) json) (js "detail")) as [detail|];
    simpl in *; [|done].
  by rewrite H.
Qed.

(** The part of the status text that holds.  When [fetch] throws, the
    status shows the connectivity text.  On a failure status with a payload
    that is an object, or with a body that does not parse (which is
    replaced by the empty object), a [detail] that is a non-empty string is
    shown as it is, and one that is absent or falsy gives the generic error
    text. *)
Lemma error_status_text esg_file tax_file port value fetch u d :
  url port value = Some u ->
  let d' := (callMatch (Some esg_file) (Some tax_file) port value fetch d).2 in
  (fetch u esg_file tax_file = FetchThrows ->
   apiStatus_className d' = js "status error" /\
   apiStatus_textContent d' = js "เชื่อมต่อ API ไม่ได้") /\
  (forall json c s,
     fetch u esg_file tax_file = Response false json ->
     getProp (default (VObj ∅) json) (js "detail") = Some (VStr (c :: s)) ->
     apiStatus_className d' = js "status error" /\
     apiStatus_textContent d' = c :: s) /\
  (forall json detail,
     fetch u esg_file tax_file = Response false json ->
     getProp (default (VObj ∅) json) (js "detail") = Some detail ->
     ToBoolean detail = false ->
     apiStatus_className d' = js "status error" /\
     apiStatus_textContent d' = js "เกิดข้อผิดพลาด") /\
  (fetch u esg_file tax_file = Response false None ->
   apiStatus_textContent d' = js "เกิดข้อผิดพลาด").
Proof.
  intros Hu. rewrite (callMatch_requests _ _ _ _ _ _ _ Hu).
  split; [by intros ->|]. split; [|split].
  - intros json c s -> Hd.
    by rewrite (failure_status_text json _ (c :: s) _ Hd).
  - intros json detail -> Hd Hfalsy.
    rewrite (failure_status_text json _ (js "เกิดข้อผิดพลาด") _ Hd); [done|].
    unfold or_else. by rewrite Hfalsy.
  - intros ->.
    by rewrite (failure_status_text None VUndefined (js "เกิดข้อผิดพลาด")).
Qed.

(** C8, as stated, fails: a failure status whose payload is [null] has no
    [detail], yet the status does not show the generic error text.  Reading
    [data.detail] throws, the handler of the [try] block runs, and the
    status shows the text of a failed connection, although the service
    answered. *)
Theorem error_status_null_payload esg_file tax_file port value fetch u d :
  url port value = Some u ->
  fetch u esg_file tax_file = Response false (Some VNull) ->
  callMatch (Some esg_file) (Some tax_file) port value fetch d =
  (Some tt,
   mkDom false (js "status error") (js "เชื่อมต่อ API ไม่ได้")
     (summaryEl_innerHTML d) (resultThead_innerHTML d)
     (resultBody_innerHTML d) (resultSection_hidden d)).
Proof.
  intros Hu Hf. rewrite (callMatch_requests _ _ _ _ _ _ _ Hu), Hf.
  by rewrite failure_status_throws.
Qed.

Lemma error_status_null_payload_witness :
  apiStatus_textContent
    (callMatch (Some file0) (Some file0) (js "8000") []
       (fun _ _ _ => Response false (Some VNull)) display0).2
  = js "เชื่อมต่อ API ไม่ได้".
Proof.
  destruct (url (js "8000") []) as [u|] eqn:Hu; [|by vm_compute in Hu].
  by rewrite (error_status_null_payload file0 file0 (js "8000") []
                (fun _ _ _ => Response false (Some VNull)) u display0 Hu eq_refl).
Defined.

(** The same happens when [detail] is there and cannot be converted to a
    string: the [textContent] setter throws. *)
Lemma error_status_unprintable_detail :
  apiStatus_textContent
    (callMatch (Some file0) (Some file0) (js "8000") []
       (fun _ _ _ => Response false (Some (obj [(js "detail", unprintable)])))
       display0).2
  = js "เชื่อมต่อ API ไม่ได้".
Proof. by vm_compute. Qed.

(** The texts a failure status is expected to show do appear for payloads
    of the documented shape. *)
Lemma error_status_shown :
  let bad := fun _ _ _ =>
    Response false (Some (obj [(js "detail", VStr (js "bad file"))])) in
  let empty := fun _ _ _ => Response false (Some (obj [])) in
  apiStatus_textContent
    (callMatch (Some file0) (Some file0) (js "8000") [] bad display0).2
  = js "bad file" /\
  apiStatus_textContent
    (callMatch (Some file0) (Some file0) (js "8000") [] empty display0).2
  = js "เกิดข้อผิดพลาด".
Proof. by vm_compute. Qed.

(** ** Missing fields of a successful response *)

Lemma renderThead_missing :
  renderThead VUndefined = Some (js "<th>ลำดับ</th><th>ข้อมูลที่ไม่ตรง</th>").
Proof. vm_compute. reflexivity. Qed.

Lemma renderBody_missing : renderBody VUndefined = Some [].
Proof. reflexivity. Qed.

(** A missing [summary], however, is read from: [summary.total_rows]
    throws. *)
Lemma renderSummary_missing match_key_label :
  renderSummary VUndefined match_key_label = None.
Proof. reflexivity. Qed.

(** C2: a successful response without a [summary] is not shown as a result
    with zero counts: reading [summary.total_rows] throws, the handler
    replaces the success status by the connectivity error, and summary,
    header, body and visibility of the result section stay as they were. *)
Theorem missing_summary_is_error esg_file tax_file port value fetch u d json o :
  url port value = Some u ->
  fetch u esg_file tax_file = Response true json ->
  default (VObj ∅) json = VObj o ->
  o !! js "summary" = None ->
  (callMatch (Some esg_file) (Some tax_file) port value fetch d).2 =
  mkDom false (js "status error") (js "เชื่อมต่อ API ไม่ได้")
    (summaryEl_innerHTML d) (resultThead_innerHTML d) (resultBody_innerHTML d)
    (resultSection_hidden d).
Proof.
  intros Hu Hf Hjson Ho. rewrite (callMatch_requests _ _ _ _ _ _ _ Hu), Hf.
  unfold tryCatchFinally, tryBlock, showResult. simpl. rewrite Hjson.
  unfold mbind, M_bind, assign, eval. simpl. by rewrite Ho.
Qed.

Lemma missing_summary_is_error_witness :
  let body := obj [(js "column_labels", VArr [VStr (js "A")]);
                   (js "match_key_label", VStr (js "ID"));
                   (js "results", VArr [])] in
  (callMatch (Some file0) (Some file0) (js "8000") []
     (fun _ _ _ => Response true (Some body)) display0).2 =
  mkDom false (js "status error") (js "เชื่อมต่อ API ไม่ได้") [] [] [] true.
Proof.
  intros body.
  destruct (url (js "8000") []) as [u|] eqn:Hu; [|by vm_compute in Hu].
  exact (missing_summary_is_error file0 file0 (js "8000") []
           (fun _ _ _ => Response true (Some body)) u display0 _ _ Hu eq_refl
           eq_refl eq_refl).
Defined.

(** An exception later in the rendering leaves what was written before it:
    with a [null] among the [results], summary and header are replaced, the
    body and the visibility are not, and the status is the connectivity
    error. *)
Lemma render_failure_is_partial :
  let body := obj [(js "summary", obj [(js "total_rows", VNum (integer 1));
                                       (js "all_match", VNum (integer 1));
                                       (js "has_mismatch", VNum (integer 0))]);
                   (js "results", VArr [VNull])] in
  let d' := (callMatch (Some file0) (Some file0) (js "8000") []
               (fun _ _ _ => Response true (Some body)) display0).2 in
  apiStatus_className d' = js "status error" /\
  apiStatus_textContent d' = js "เชื่อมต่อ API ไม่ได้" /\
  summaryEl_innerHTML d' <> [] /\
  resultThead_innerHTML d' = js "<th>ลำดับ</th><th>ข้อมูลที่ไม่ตรง</th>" /\
  resultBody_innerHTML d' = [] /\
  resultSection_hidden d' = true /\
  btnMatch_disabled d' = false.
Proof. vm_compute. repeat split; done. Qed.

(** With a [summary], missing [results] and [column_labels] are taken as
    empty and the result is shown. *)
Lemma missing_results_and_labels :
  let body := obj [(js "summary", obj [(js "total_rows", VNum (integer 0));
                                       (js "all_match", VNum (integer 0));
                                       (js "has_mismatch", VNum (integer 0))])] in
  let d' := (callMatch (Some file0) (Some file0) (js "8000") []
               (fun _ _ _ => Response true (Some body)) display0).2 in
  apiStatus_className d' = js "status success" /\
  resultThead_innerHTML d' = js "<th>ลำดับ</th><th>ข้อมูลที่ไม่ตรง</th>" /\
  resultBody_innerHTML d' = [] /\
  resultSection_hidden d' = false.
Proof. vm_compute. done. Qed.

(** ** Cells *)

Lemma getProp_not_nullish r k :
  isNullish r = false -> exists v, getProp r k = Some v.
Proof. destruct r; simpl; try done; eauto. Qed.

Lemma getIndex_truthy v i :
  ToBoolean v = true -> exists x, getIndex v i = Some x.
Proof. destruct v; simpl; try done; eauto. Qed.



Lemma cellOk_total r i :
  isNullish r = false -> exists ok, cellOk r i = Some ok.
Proof.
  intros Hr. unfold cellOk.
  destruct (getProp_not_nullish r (js "cells_match") Hr) as [cm ->]. simpl.
  destruct (ToBoolean cm) eqn:Hcm; [by apply getIndex_truthy | eauto].
Qed.

Lemma cellTv_falsy r vt i :
  getProp r (js "values_tax") = Some vt -> ToBoolean vt = false ->
  cellTv r i = Some (VStr []).
Proof.
  intros H Hb. unfold cellTv. rewrite H. simpl. rewrite Hb. simpl.
  by rewrite Hb.
Qed.

Lemma cellTv_array r vt i :
  getProp r (js "values_tax") = Some (VArr vt) ->
  cellTv r i = Some (default (VStr []) (vt !! i)) \/
  (vt !! i = Some VUndefined /\ cellTv r i = Some (VStr [])).
Proof.
  intros H. unfold cellTv. rewrite H. simpl.
  destruct (vt !! i) as [x|]; simpl; [|by left].
  destruct x; simpl; auto.
Qed.

Lemma cellTv_total r i :
  isNullish r = false -> exists tv, cellTv r i = Some tv.
Proof.
  intros Hr. unfold cellTv.
  destruct (getProp_not_nullish r (js "values_tax") Hr) as [vt ->]. simpl.
  destruct (ToBoolean vt) eqn:Hvt; simpl.
  - destruct (getIndex_truthy vt i Hvt) as [x Hx]. rewrite Hx. simpl.
    destruct (isUndefined x); simpl; eauto.
  - rewrite Hvt. eauto.
Qed.

Lemma cellTv_defined r i tv : cellTv r i = Some tv -> tv <> VUndefined.
Proof.
  unfold cellTv. intros H.
  destruct (getProp r (js "values_tax")) as [vt|]; simpl in H; [|done].
  destruct (ToBoolean vt) eqn:Hvt; simpl in H.
  - destruct (getIndex vt i) as [x|]; simpl in H; [|done].
    destruct x; simpl in H; congruence.
  - rewrite Hvt in H. congruence.
Qed.

(** The tax value of a cell is an entry of [values_tax] or the empty
    string: with primitive entries it is a primitive. *)
Lemma cellTv_primitive r vt i tv :
  getProp r (js "values_tax") = Some vt -> primitives vt = true ->
  cellTv r i = Some tv -> isPrimitive tv = true.
Proof.
  intros Hvt Hp. unfold cellTv. rewrite Hvt. cbn [mbind option_bind].
  destruct (ToBoolean vt) eqn:Htruthy.
  - destruct (getIndex vt i) as [x|] eqn:Hx; cbn [mbind option_bind]; [|done].
    assert (isPrimitive x = true) as Hpx.
    { destruct vt as [| |b|n|s|l|o]; try done;
        try (by apply (inj Some) in Hx; subst x).
      - simpl in Hx. apply (inj Some) in Hx. subst x.
        by destruct (s !! i).
      - simpl in Hx. apply (inj Some) in Hx. subst x.
        destruct (l !! i) as [y|] eqn:Hy; [|done]. simpl.
        simpl in Hp. rewrite forallb_forall in Hp. apply Hp.
        by apply list_elem_of_In, list_elem_of_lookup_2 with i. }
    destruct (isUndefined x); cbn [ToBoolean negb]; intros H;
      by apply (inj Some) in H; subst tv.
  - cbn [mbind option_bind]. rewrite Htruthy. intros H.
    by apply (inj Some) in H; subst tv.
Qed.

Lemma js_ESG : js "ESG: " = [69; 83; 71; 58; 32].
Proof. by vm_compute. Qed.

Lemma title_truthy esg tax :
  ToBoolean (VStr (js "ESG: " ++ esg ++ js " | ภาษี: " ++ tax)) = true.
Proof.
  rewrite js_ESG. cbn [app ToBoolean]. by rewrite bool_decide_eq_false_2.
Qed.

(** A cell that is [ok] has no title and no [title] attribute. *)
Lemma renderCell_ok r v i ok tv text :
  cellOk r i = Some ok -> cellTv r i = Some tv -> ToBoolean ok = true ->
  escapeHtml v = Some text ->
  renderCell r v i =
    Some (js "<td class=" ++ dq ++ js "cell-ok" ++ dq ++ js ">"
          ++ text ++ js "</td>").
Proof.
  intros Hok Htv Htruthy Htext. unfold renderCell, cellTitle, cellClass.
  rewrite Hok, Htv. cbn [mbind option_bind]. rewrite Htruthy.
  cbn [negb mbind option_bind]. rewrite Htext. reflexivity.
Qed.

(** A cell that is not has the title with both values in its [title]
    attribute. *)
Lemma renderCell_warn r v i ok tv esg tax text :
  cellOk r i = Some ok -> cellTv r i = Some tv -> ToBoolean ok = false ->
  ToString v = Some esg -> ToString tv = Some tax ->
  escapeHtml v = Some text ->
  renderCell r v i =
    Some (js "<td class=" ++ dq ++ js "cell-warn" ++ dq
          ++ js " title=" ++ dq
          ++ escaped (js "ESG: " ++ esg ++ js " | ภาษี: " ++ tax)
          ++ dq ++ js ">" ++ text ++ js "</td>").
Proof.
  intros Hok Htv Hfalsy Hesg Htax Htext. unfold renderCell, cellTitle, cellClass.
  rewrite Hok, Htv. cbn [mbind option_bind]. rewrite Hfalsy.
  cbn [negb]. rewrite Hesg, Htax. cbn [mbind option_bind].
  rewrite title_truthy, escapeHtml_string.
  cbn [mbind option_bind]. rewrite Htext. cbn [mbind option_bind].
  by rewrite <- !app_assoc.
Qed.

Lemma renderCell_shape r v i c :
  renderCell r v i = Some c ->
  exists ok tv text,
    cellOk r i = Some ok /\ cellTv r i = Some tv /\
    escapeHtml v = Some text /\
    if ToBoolean ok
    then c = js "<td class=" ++ dq ++ js "cell-ok" ++ dq ++ js ">"
             ++ text ++ js "</td>"
    else exists esg tax,
         ToString v = Some esg /\ ToString tv = Some tax /\
         c = js "<td class=" ++ dq ++ js "cell-warn" ++ dq
             ++ js " title=" ++ dq
             ++ escaped (js "ESG: " ++ esg ++ js " | ภาษี: " ++ tax)
             ++ dq ++ js ">" ++ text ++ js "</td>".
Proof.
  unfold renderCell. intros H.
  destruct (cellOk r i) as [ok|]; [|done].
  destruct (cellTv r i) as [tv|]; [|done].
  cbn [mbind option_bind] in H. unfold cellTitle, cellClass in H.
  exists ok, tv.
  destruct (ToBoolean ok) eqn:Htruthy; cbn [negb] in H.
  - cbn [mbind option_bind ToBoolean] in H.
    rewrite bool_decide_eq_true_2 in H by done. cbn [negb] in H.
    destruct (escapeHtml v) as [text|]; [|done].
    cbn [mbind option_bind] in H. apply (inj Some) in H. subst c.
    by exists text.
  - destruct (ToString v) as [esg|]; [|done].
    destruct (ToString tv) as [tax|]; [|done].
    cbn [mbind option_bind] in H.
    rewrite title_truthy, escapeHtml_string in H.
    cbn [mbind option_bind] in H.
    destruct (escapeHtml v) as [text|]; [|done].
    cbn [mbind option_bind] in H. apply (inj Some) in H. subst c.
    exists text. do 3 (split; [done|]). exists esg, tax.
    by rewrite <- !app_assoc.
Qed.

(** A cell of a row that is not [null] renders when the ESG value and the
    entries of [values_tax] are primitives. *)
Lemma renderCell_primitive r v i vt :
  isNullish r = false ->
  getProp r (js "values_tax") = Some vt -> primitives vt = true ->
  isPrimitive v = true -> is_Some (renderCell r v i).
Proof.
  intros Hr Hvt Hp Hv.
  destruct (cellOk_total r i Hr) as [ok Hok].
  destruct (cellTv_total r i Hr) as [tv Htv].
  pose proof (cellTv_primitive r vt i tv Hvt Hp Htv) as Hptv.
  destruct (ToString_primitive v Hv) as [esg Hesg].
  destruct (ToString_primitive tv Hptv) as [tax Htax].
  destruct (escapeHtml_primitive v Hv) as [text Htext].
  destruct (ToBoolean ok) eqn:Htruthy.
  - by rewrite (renderCell_ok r v i ok tv text).
  - by rewrite (renderCell_warn r v i ok tv esg tax text).
Qed.

(** ** The tax value of a tooltip *)

(** C5, as stated, fails: a [null] entry of [values_tax] is not replaced by
    the empty string.  The guard of the source tests for [undefined] only,
    so the entry is kept and the tooltip of the mismatched cell shows the
    text "null" for it. *)
Theorem tooltip_null_tax_value :
  cellTv rowNullTax 0 = Some VNull /\
  renderCell rowNullTax (VStr (js "x")) 0 =
    Some (js "<td class=" ++ dq ++ js "cell-warn" ++ dq ++ js " title=" ++ dq
          ++ js "ESG: x | ภาษี: null" ++ dq ++ js ">x</td>").
Proof. split; vm_compute; reflexivity. Qed.

(** The part of C5 that holds: when [values_tax] is absent (or otherwise
    falsy), or is an array with no entry at the position of the cell, the
    tax value of the tooltip is the empty string, so the tooltip of a
    mismatched cell ends right after the tax label; the tax value is never
    [undefined].  An entry that is there is kept. *)
Lemma tooltip_tax_value r i :
  (forall vt, getProp r (js "values_tax") = Some vt -> ToBoolean vt = false ->
     cellTv r i = Some (VStr [])) /\
  (forall vt, getProp r (js "values_tax") = Some (VArr vt) ->
     (length vt <= i)%nat -> cellTv r i = Some (VStr [])) /\
  (forall vt x, getProp r (js "values_tax") = Some (VArr vt) ->
     vt !! i = Some x -> x <> VUndefined -> cellTv r i = Some x) /\
  (forall tv, cellTv r i = Some tv -> tv <> VUndefined) /\
  (forall ok s, ToBoolean ok = false ->
     cellTitle ok (VStr s) (VStr []) = Some (js "ESG: " ++ s ++ js " | ภาษี: ")).
Proof.
  repeat split.
  - intros vt. apply cellTv_falsy.
  - intros vt H Hlen. apply lookup_ge_None_2 in Hlen.
    destruct (cellTv_array r vt i H) as [-> | [Hx _]]; [by rewrite Hlen | congruence].
  - intros vt x H Hx Hdef.
    destruct (cellTv_array r vt i H) as [-> | [Hu _]]; [by rewrite Hx|].
    congruence.
  - intros tv. apply cellTv_defined.
  - intros ok s Hok. unfold cellTitle. rewrite Hok.
    cbn [negb ToString mbind option_bind]. by rewrite app_nil_r.
Qed.

Lemma tooltip_missing_tax_value :
  cellTv rowBare 1 = Some (VStr []) /\
  renderCell rowBare (VStr (js "y")) 1 =
    Some (js "<td class=" ++ dq ++ js "cell-warn" ++ dq ++ js " title=" ++ dq
          ++ js "ESG: y | ภาษี: " ++ dq ++ js ">y</td>").
Proof. split; vm_compute; reflexivity. Qed.

(** ** [Array.prototype.map] *)

Lemma mapM_ext_in {A B} (f g : A -> option B) l :
  (forall x, x ∈ l -> f x = g x) -> mapM f l = mapM g l.
Proof.
  induction l as [|x l IH]; intros Hfg; [done|]. simpl.
  rewrite (Hfg x) by left. rewrite IH; [done|].
  intros y Hy. apply Hfg. by right.
Qed.

Lemma Array_map_ext {B} (f g : value -> nat -> option B) l :
  (forall i v, l !! i = Some v -> f v i = g v i) ->
  Array_map f (VArr l) = Array_map g (VArr l).
Proof.
  intros Hfg. simpl. apply mapM_ext_in. intros [i v] Hin.
  apply list_elem_of_lookup in Hin as [j Hj].
  rewrite list_lookup_imap in Hj.
  destruct (l !! j) as [w|] eqn:Hw; simpl in Hj; [|done].
  injection Hj as <- <-. simpl. by apply Hfg.
Qed.

Lemma Array_map_length {B} (f : value -> nat -> option B) l ys :
  Array_map f (VArr l) = Some ys -> length ys = length l.
Proof.
  simpl. intros H. apply mapM_Some_1, Forall2_length in H.
  by rewrite length_imap in H.
Qed.

Lemma Array_map_lookup {B} (f : value -> nat -> option B) l ys i y :
  Array_map f (VArr l) = Some ys -> ys !! i = Some y ->
  exists v, l !! i = Some v /\ f v i = Some y.
Proof.
  simpl. intros H Hy. apply mapM_Some_1 in H.
  destruct (Forall2_lookup_r _ _ _ _ _ H Hy) as ([j v] & Hv & Hf).
  rewrite list_lookup_imap in Hv.
  destruct (l !! i) as [w|] eqn:Hw; simpl in Hv; [|done].
  injection Hv as <- <-. eauto.
Qed.

Lemma Array_map_total {B} (f : value -> nat -> option B) l :
  (forall i v, l !! i = Some v -> is_Some (f v i)) ->
  exists ys, Array_map f (VArr l) = Some ys.
Proof.
  intros Hf. simpl. apply mapM_is_Some_2, Forall_forall.
  intros [i v] Hin. apply list_elem_of_lookup in Hin as [j Hj].
  rewrite list_lookup_imap in Hj.
  destruct (l !! j) as [w|] eqn:Hw; simpl in Hj; [|done].
  injection Hj as <- <-. simpl. by apply Hf.
Qed.

Lemma Array_map_const {B} (f : value -> option B) l :
  Array_map (fun v _ => f v) (VArr l) = mapM f l.
Proof.
  simpl.
  assert (forall g : nat -> value -> nat * value,
            (forall n v, (g n v).2 = v) ->
            mapM (fun p => f p.2) (imap g l) = mapM f l) as Hg.
  { induction l as [|x l IH]; intros g Hsnd; [done|].
    simpl. rewrite Hsnd, IH; [done|]. intros n v. apply Hsnd. }
  by apply Hg.
Qed.


Lemma join_nil_concat parts : join [] parts = concat parts.
Proof.
  induction parts as [|p [|q parts] IH]; [done | |].
  - simpl. by rewrite app_nil_r.
  - change (join [] (p :: q :: parts)) with (p ++ [] ++ join [] (q :: parts)).
    rewrite IH. reflexivity.
Qed.

(** ** The mismatch cell *)

Lemma or_else_marker s :
  or_else (VStr s) (VStr (js "(ว่าง)")) = VStr (orMarker s).
Proof.
  unfold or_else, orMarker. cbn [ToBoolean]. by case_bool_decide.
Qed.

Lemma mismatchObject_fields m :
  getProp (mismatchObject m) (js "column_label") = Some (VStr (column_label m)) /\
  getProp (mismatchObject m) (js "esg_value") = Some (VStr (esg_value m)) /\
  getProp (mismatchObject m) (js "tax_value") = Some (VStr (tax_value m)).
Proof. repeat split; vm_compute; reflexivity. Qed.

Lemma renderMismatch_object m i :
  renderMismatch (mismatchObject m) i = Some (mismatchText m).
Proof.
  destruct (mismatchObject_fields m) as (Hlabel & Hesg & Htax).
  unfold renderMismatch. rewrite Hlabel, Hesg, Htax.
  cbn [mbind option_bind].
  rewrite !or_else_marker, !escapeHtml_string. reflexivity.
Qed.

Lemma mapM_renderMismatch ms :
  mapM (fun m => renderMismatch m 0) (mismatchObject <$> ms) =
  Some (mismatchText <$> ms).
Proof.
  induction ms as [|m ms IH]; [done|].
  rewrite !fmap_cons. cbn -[renderMismatch mismatchObject mismatchText].
  rewrite renderMismatch_object. cbn -[renderMismatch mismatchObject mismatchText].
  by rewrite IH.
Qed.

Lemma length_truthy {A} (l : list A) :
  ToBoolean (VNum (integer (Z.of_nat (length l)))) = negb (bool_decide (l = [])).
Proof. by destruct l. Qed.

Lemma mismatchHtml_falsy r mm :
  getProp r (js "mismatches") = Some mm -> ToBoolean mm = false ->
  mismatchHtml r = Some (js "—").
Proof.
  intros H Hfalsy. unfold mismatchHtml. rewrite H. simpl.
  unfold or_else. by rewrite Hfalsy.
Qed.

Lemma mismatchHtml_empty r :
  getProp r (js "mismatches") = Some (VArr []) ->
  mismatchHtml r = Some (js "—").
Proof. intros H. unfold mismatchHtml. by rewrite H. Qed.

Lemma mismatchHtml_array r m l :
  getProp r (js "mismatches") = Some (VArr (m :: l)) ->
  mismatchHtml r = join (js " · ") <$> Array_map renderMismatch (VArr (m :: l)).
Proof.
  intros H. unfold mismatchHtml. rewrite H. cbn [mbind option_bind].
  change (or_else (VArr (m :: l)) (VArr [])) with (VArr (m :: l)).
  cbn [mbind option_bind getLength]. by rewrite length_truthy.
Qed.

Lemma mismatchHtml_entries r m ms :
  getProp r (js "mismatches") = Some (VArr (mismatchObject <$> m :: ms)) ->
  mismatchHtml r = Some (join (js " · ") (mismatchText <$> m :: ms)).
Proof.
  intros H. rewrite fmap_cons in H. rewrite (mismatchHtml_array r _ _ H).
  rewrite <- fmap_cons.
  rewrite (Array_map_ext renderMismatch (fun v _ => renderMismatch v 0))
    by done.
  by rewrite Array_map_const, mapM_renderMismatch.
Qed.

(** C7: the mismatch cell is a single dash when [mismatches] is empty (or
    absent); otherwise it is the entries of [mismatches], one for each and
    in their order, joined by the separator.  An entry with its three
    strings shows the column label, the ESG value and the tax value, with
    the marker in place of an empty value. *)
Theorem mismatch_summary r :
  (getProp r (js "mismatches") = Some (VArr []) ->
   mismatchHtml r = Some (js "—")) /\
  (forall mm, getProp r (js "mismatches") = Some mm -> ToBoolean mm = false ->
     mismatchHtml r = Some (js "—")) /\
  (forall m ms,
     getProp r (js "mismatches") = Some (VArr (mismatchObject <$> m :: ms)) ->
     mismatchHtml r = Some (join (js " · ") (mismatchText <$> m :: ms))) /\
  (forall m l h,
     getProp r (js "mismatches") = Some (VArr (m :: l)) ->
     mismatchHtml r = Some h ->
     exists entries,
       h = join (js " · ") entries /\ length entries = length (m :: l) /\
       forall i x, (m :: l) !! i = Some x ->
         exists entry, entries !! i = Some entry /\
                       renderMismatch x i = Some entry).
Proof.
  repeat split.
  - apply mismatchHtml_empty.
  - apply mismatchHtml_falsy.
  - apply mismatchHtml_entries.
  - intros m l h H Hh. rewrite (mismatchHtml_array r m l H) in Hh.
    destruct (Array_map renderMismatch (VArr (m :: l))) as [entries|] eqn:He;
      [|done].
    apply (inj Some) in Hh. subst h. exists entries. split; [done|].
    pose proof (Array_map_length _ _ _ He) as Hlen. split; [done|].
    intros i x Hx.
    destruct (lookup_lt_is_Some_2 entries i) as [entry Hentry].
    { rewrite Hlen. by apply lookup_lt_Some in Hx. }
    exists entry. split; [done|].
    destruct (Array_map_lookup _ _ _ _ _ He Hentry) as (x' & Hx' & Hr).
    by rewrite Hx in Hx'; injection Hx' as <-.
Qed.

Lemma mismatch_summary_witness :
  mismatchHtml rowMatch = Some (js "—") /\
  mismatchHtml rowMismatch =
    Some (js "<span class=" ++ dq ++ js "mismatch-label" ++ dq
          ++ js ">A</span>: ESG=<strong>x</strong> ภาษี=<strong>y</strong>").
Proof.
  split.
  - apply (proj1 (mismatch_summary rowMatch)). by vm_compute.
  - rewrite (proj1 (proj2 (proj2 (mismatch_summary rowMismatch)))
               (mkMismatch (js "A") (js "x") (js "y")) []);
      by vm_compute.
Defined.

(** An empty value of a mismatch is shown by the marker. *)
Lemma mismatch_empty_value :
  mismatchText (mkMismatch (js "A") [] (js "y")) =
    js "<span class=" ++ dq ++ js "mismatch-label" ++ dq
    ++ js ">A</span>: ESG=<strong>(ว่าง)</strong> ภาษี=<strong>y</strong>".
Proof. by vm_compute. Qed.

(** ** Classification of rows and cells *)


Lemma cellList_array r ve :
  getProp r (js "values_esg") = Some (VArr ve) ->
  cellList r = Array_map (renderCell r) (VArr ve).
Proof. intros H. unfold cellList. by rewrite H. Qed.









Lemma rowObject_samples :
  rowObject resultMatch = rowMatch /\ rowObject resultMismatch = rowMismatch.
Proof. split; vm_compute; reflexivity. Qed.


(** ** The data cells of a row *)









Lemma getProp_Some_not_nullish r k v : getProp r k = Some v -> isNullish r = false.
Proof. by destruct r. Qed.

Lemma cellList_falsy r ve :
  getProp r (js "values_esg") = Some ve -> ToBoolean ve = false ->
  cellList r = Some [].
Proof.
  intros Hve Hfalsy. unfold cellList. rewrite Hve. simpl.
  unfold or_else. by rewrite Hfalsy.
Qed.

(** The cells of a row whose ESG and tax values are primitives. *)
Lemma cellList_primitive r ve vt :
  getProp r (js "values_esg") = Some (VArr ve) ->
  getProp r (js "values_tax") = Some vt ->
  forallb isPrimitive ve = true -> primitives vt = true ->
  exists cells, cellList r = Some cells /\ length cells = length ve.
Proof.
  intros Hve Hvt Hpe Hpt. rewrite (cellList_array r ve Hve).
  destruct (Array_map_total (renderCell r) ve) as [cells Hcells].
  { intros i v Hv. apply (renderCell_primitive r v i vt); try done.
    - by apply (getProp_Some_not_nullish r _ _ Hve).
    - rewrite forallb_forall in Hpe. apply Hpe.
      by apply list_elem_of_In, list_elem_of_lookup_2 with i. }
  exists cells. split; [done|]. by apply Array_map_length in Hcells.
Qed.



(** A cell value that cannot be converted to a string ends the rendering
    of the cells with an exception. *)
Lemma cellList_unprintable :
  cellList (obj [(js "values_esg", VArr [unprintable])]) = None.
Proof. by vm_compute. Qed.

(** ** Markup in the rendered values *)

(** C3, as stated, fails for the tooltip: the title of a mismatched cell
    goes through [escapeHtml], which leaves the double quote as it is, and
    is then put between double quotes.  A cell value with a double quote,
    which escaping leaves unchanged, ends the [title] attribute early, and
    what follows it in the value is read as further attributes of the
    cell: the cell then holds eight double quotes, four more than its own. *)
Theorem tooltip_quote_kept :
  escapeHtml (VStr quoted) = Some quoted /\
  renderCell rowQuote (VStr quoted) 0 =
    Some (js "<td class=" ++ dq ++ js "cell-warn" ++ dq ++ js " title=" ++ dq
          ++ js "ESG: " ++ dq ++ js " onclick=" ++ dq ++ js "x | ภาษี: y" ++ dq
          ++ js ">" ++ dq ++ js " onclick=" ++ dq ++ js "x</td>") /\
  (exists c, renderCell rowQuote (VStr quoted) 0 = Some c /\ occ 34 c = 8%nat).
Proof.
  split; [by vm_compute|]. split; [by vm_compute|].
  eexists. split; [reflexivity|]. by vm_compute.
Qed.

(** Row ordinals and summary counts are put into the markup by string
    conversion alone, without [escapeHtml]: an ordinal or a count that is
    not a number and holds markup reaches the display as markup. *)
Lemma ordinal_and_counts_unescaped :
  renderRow rowMarkupOrdinal 0 =
    Some (js "<tr class=" ++ dq ++ js "row-ok" ++ dq
          ++ js "><td><b></td><td class=" ++ dq ++ js "mismatch-cell" ++ dq
          ++ js ">—</td></tr>") /\
  escapeHtml (VStr (js "<b>")) = Some (js "&lt;b&gt;") /\
  (exists h, renderSummary summaryMarkup VUndefined = Some h /\
             (nl 6 ++ js "<p>รวมแถว: <strong><i></strong>") `prefix_of` h).
Proof.
  split; [by vm_compute|]. split; [by vm_compute|].
  eexists. split; [reflexivity|]. eexists. vm_compute. reflexivity.
Qed.

(** ** A whole response *)

(** The response of two rows, one matching and one not, is shown as two
    body rows, the first [row-ok] and the second [row-warn] with its
    mismatch text. *)
Lemma two_rows_shown :
  renderBody (VArr [rowMatch; rowMismatch]) =
    Some (js "<tr class=" ++ dq ++ js "row-ok" ++ dq
          ++ js "><td>1</td><td class=" ++ dq ++ js "cell-ok" ++ dq
          ++ js ">x</td><td class=" ++ dq ++ js "mismatch-cell" ++ dq
          ++ js ">—</td></tr>"
          ++ js "<tr class=" ++ dq ++ js "row-warn" ++ dq
          ++ js "><td>2</td><td class=" ++ dq ++ js "cell-warn" ++ dq
          ++ js " title=" ++ dq ++ js "ESG: x | ภาษี: y" ++ dq
          ++ js ">x</td><td class=" ++ dq ++ js "mismatch-cell" ++ dq
          ++ js "><span class=" ++ dq ++ js "mismatch-label" ++ dq
          ++ js ">A</span>: ESG=<strong>x</strong> ภาษี=<strong>y</strong>"
          ++ js "</td></tr>").
Proof. by vm_compute. Qed.
(** * Further properties *)

(** ** [encodeURIComponent] and the URL *)

Lemma hexDigit_encoded n : n < 16 -> isEncoded (hexDigit n) = true.
Proof.
  intros Hn. rewrite <- (N2Nat.id n).
  assert (N.to_nat n < 16)%nat as Hm by lia. clear Hn.
  generalize dependent (N.to_nat n). intros m Hm.
  do 16 (destruct m as [|m]; [by vm_compute|]). lia.
Qed.

Lemma percent_encoded b : b < 256 -> forallb isEncoded (percent b) = true.
Proof.
  intros Hb. unfold percent. simpl.
  rewrite !hexDigit_encoded; [done | |].
  - apply N.mod_lt. lia.
  - apply N.Div0.div_lt_upper_bound. lia.
Qed.

Lemma forallb_flat_map {A B} (P : B -> bool) (f : A -> list B) l :
  Forall (fun x => forallb P (f x) = true) l ->
  forallb P (flat_map f l) = true.
Proof.
  induction 1 as [|x l Hx _ IH]; simpl; [done|].
  by rewrite forallb_app, Hx, IH.
Qed.

Lemma utf8_bytes cp : cp < 1114112 -> Forall (fun b => b < 256) (utf8 cp).
Proof.
  intros Hcp. unfold utf8.
  pose proof (N.Div0.div_lt_upper_bound cp 64 32).
  pose proof (N.Div0.div_lt_upper_bound cp 4096 16).
  pose proof (N.Div0.div_lt_upper_bound cp 262144 5).
  pose proof (N.mod_lt cp 64).
  pose proof (N.mod_lt (cp / 64) 64).
  pose proof (N.mod_lt (cp / 4096) 64).
  destruct (N.ltb_spec cp 128); [|destruct (N.ltb_spec cp 2048);
    [|destruct (N.ltb_spec cp 65536)]];
    repeat first [apply Forall_nil_2 | apply Forall_cons_2]; lia.
Qed.

Lemma escapes_encoded cp :
  cp < 1114112 -> forallb isEncoded (flat_map percent (utf8 cp)) = true.
Proof.
  intros Hcp. apply forallb_flat_map.
  eapply Forall_impl; [by apply utf8_bytes|].
  intros b. apply percent_encoded.
Qed.

Lemma encodeURIComponent_encoded_aux n s out :
  (length s <= n)%nat ->
  Forall (fun c => c < 65536) s ->
  encodeURIComponent s = Some out -> forallb isEncoded out = true.
Proof.
  revert s out. induction n as [|n IH]; intros s out Hlen Hs H.
  { destruct s; [|simpl in Hlen; lia]. by injection H as <-. }
  destruct s as [|c s]; [by injection H as <-|].
  simpl in Hlen. apply Forall_cons in Hs as [Hc Hs]. simpl in H.
  destruct (isUnreserved c) eqn:Hunres.
  { destruct (encodeURIComponent s) as [rest|] eqn:Hrest; [|done].
    injection H as <-. simpl. unfold isEncoded at 1. rewrite Hunres. simpl.
    apply (IH s); [lia | done | done]. }
  destruct ((c <? 55296) || (57343 <? c)) eqn:Hplain.
  { destruct (encodeURIComponent s) as [rest|] eqn:Hrest; [|done].
    injection H as <-. rewrite forallb_app, escapes_encoded by lia.
    apply (IH s); [lia | done | done]. }
  destruct (c <? 56320) eqn:Hhigh; [|done].
  destruct s as [|c2 s]; [done|].
  destruct ((56320 <=? c2) && (c2 <=? 57343)) eqn:Hlow; [|done].
  destruct (encodeURIComponent s) as [rest|] eqn:Hrest; [|done].
  injection H as <-. apply Forall_cons in Hs as [Hc2 Hs]. simpl in Hlen.
  rewrite forallb_app, escapes_encoded.
  - apply (IH s); [lia | done | done].
  - apply andb_prop in Hlow as [Hl1%N.leb_le Hl2%N.leb_le].
    apply orb_false_elim in Hplain as [Hp1%N.ltb_ge Hp2%N.ltb_ge].
    apply N.ltb_lt in Hhigh. lia.
Qed.

(** The result of [encodeURIComponent] on a string of 16-bit code units
    holds only unreserved characters and percent signs. *)
Theorem encodeURIComponent_encoded s out :
  forallb isCodeUnit s = true ->
  encodeURIComponent s = Some out -> forallb isEncoded out = true.
Proof.
  intros Hs. apply (encodeURIComponent_encoded_aux (length s)); [lia|].
  apply Forall_forall. intros c Hc.
  rewrite forallb_forall in Hs. apply N.ltb_lt, Hs. by apply list_elem_of_In.
Qed.

Lemma encodeURIComponent_encoded_witness :
  exists out, encodeURIComponent (js "a b&c=ตาราง") = Some out /\
              forallb isEncoded out = true.
Proof.
  destruct (encodeURIComponent (js "a b&c=ตาราง")) as [out|] eqn:Hout;
    [|by vm_compute in Hout].
  exists out. split; [done|].
  apply (encodeURIComponent_encoded (js "a b&c=ตาราง") out); [|done].
  by vm_compute.
Defined.

Lemma occ_not_encoded k out :
  isEncoded k = false -> forallb isEncoded out = true -> occ k out = 0%nat.
Proof.
  intros Hk. induction out as [|c out IH]; simpl; [done|].
  intros [Hc Hout]%andb_prop. rewrite IH by done.
  destruct (N.eqb_spec c k) as [->|]; [congruence | done].
Qed.

Lemma encodeURIComponent_plain s :
  forallb notSurrogate s = true -> is_Some (encodeURIComponent s).
Proof.
  induction s as [|c s IH]; simpl; [by eexists|].
  intros [Hc Hs]%andb_prop. destruct (IH Hs) as [rest ->].
  unfold notSurrogate in Hc. rewrite Hc.
  destruct (isUnreserved c); by eexists.
Qed.

(** ** [trim] and the sheet name *)

Lemma trimStart_split s :
  exists p, s = p ++ trimStart s /\ forallb isWhiteSpace p = true.
Proof.
  induction s as [|c s (p & IH & Hp)]; simpl.
  - by exists [].
  - destruct (isWhiteSpace c) eqn:Hc; [|by exists []].
    exists (c :: p). simpl. rewrite Hc. split; [by f_equal | done].
Qed.

Lemma trimStart_head s c t : trimStart s = c :: t -> isWhiteSpace c = false.
Proof.
  induction s as [|x s IH]; simpl; [done|].
  destruct (isWhiteSpace x) eqn:Hx; [done|]. by intros [= <- _].
Qed.

Lemma forallb_reverse {A} (P : A -> bool) l :
  forallb P (reverse l) = forallb P l.
Proof.
  induction l as [|x l IH]; [done|].
  rewrite reverse_cons, forallb_app, IH. simpl.
  by rewrite andb_true_r, andb_comm.
Qed.

Lemma trimEnd_split s :
  exists q, s = trimEnd s ++ q /\ forallb isWhiteSpace q = true.
Proof.
  destruct (trimStart_split (reverse s)) as (p & Hp & Hws).
  exists (reverse p). split.
  - unfold trimEnd. rewrite <- reverse_app, <- Hp. by rewrite reverse_involutive.
  - by rewrite forallb_reverse.
Qed.

Lemma trim_split s :
  exists p q, s = p ++ trim s ++ q /\
    forallb isWhiteSpace p = true /\ forallb isWhiteSpace q = true.
Proof.
  destruct (trimStart_split s) as (p & Hp & Hpws).
  destruct (trimEnd_split (trimStart s)) as (q & Hq & Hqws).
  exists p, q. unfold trim. by rewrite <- Hq.
Qed.

Lemma trim_head s c : head (trim s) = Some c -> isWhiteSpace c = false.
Proof.
  destruct (trimEnd_split (trimStart s)) as (q & Hq & _).
  unfold trim. destruct (trimEnd (trimStart s)) as [|x t] eqn:Ht; [done|].
  intros [= ->]. by apply (trimStart_head s c (t ++ q)).
Qed.

Lemma trim_last s c : last (trim s) = Some c -> isWhiteSpace c = false.
Proof.
  unfold trim, trimEnd. rewrite last_reverse.
  destruct (trimStart (reverse (trimStart s))) as [|x t] eqn:Ht; [done|].
  intros [= ->]. by apply (trimStart_head _ _ _ Ht).
Qed.

Lemma trim_idempotent s : trim (trim s) = trim s.
Proof.
  assert (forall t, (forall c, head t = Some c -> isWhiteSpace c = false) ->
                    trimStart t = t) as Hstart.
  { intros [|c t] Hc; [done|]. simpl. by rewrite (Hc c). }
  assert (forall t, (forall c, last t = Some c -> isWhiteSpace c = false) ->
                    trimEnd t = t) as Hend.
  { intros t Hc. unfold trimEnd. rewrite Hstart; [apply reverse_involutive|].
    intros c. rewrite head_reverse. apply Hc. }
  unfold trim at 1. rewrite Hstart by apply trim_head.
  apply Hend, trim_last.
Qed.

(** The sheet name sent: it neither begins nor ends with white space,
    trimming it again changes nothing, and for an input that is not empty
    it is the input without the white space at its two ends. *)
Theorem sheetName_trimmed value :
  (forall c, head (sheetName value) = Some c -> isWhiteSpace c = false) /\
  (forall c, last (sheetName value) = Some c -> isWhiteSpace c = false) /\
  trim (sheetName value) = sheetName value /\
  (value <> [] ->
   exists p q, value = p ++ sheetName value ++ q /\
     forallb isWhiteSpace p = true /\ forallb isWhiteSpace q = true).
Proof.
  unfold sheetName. repeat split.
  - apply trim_head.
  - apply trim_last.
  - apply trim_idempotent.
  - intros Hv. rewrite bool_decide_eq_false_2 by done. apply trim_split.
Qed.

Lemma sheetName_trimmed_witness :
  exists p q, js "  ตาราง ไมวัน  " = p ++ sheetName (js "  ตาราง ไมวัน  ") ++ q /\
    forallb isWhiteSpace p = true /\ forallb isWhiteSpace q = true.
Proof.
  apply (proj2 (proj2 (proj2 (sheetName_trimmed (js "  ตาราง ไมวัน  "))))).
  by vm_compute.
Defined.

(** ** The URL of the request *)

Lemma fixed_parameters_encoded :
  encodeURIComponent esgSheetName =
    Some (js "%E0%B9%80%E0%B8%87%E0%B8%B4%E0%B8%99%E0%B8%A3%E0%B8%B2%E0%B8%87%E0%B8%A7%E0%B8%B1%E0%B8%A5%E0%B9%80%E0%B8%A3%E0%B8%B5%E0%B8%A2%E0%B8%81%E0%B9%80%E0%B8%81%E0%B9%87%E0%B8%9A%20ESG") /\
  encodeURIComponent esgCols = Some (js "2%2C3%2C5%2C6%2C8%2C14%2C15") /\
  encodeURIComponent taxCols = Some (js "1%2C2%2C4%2C5%2C7%2C13%2C14").
Proof. repeat split; by vm_compute. Qed.

Lemma url_shape port value :
  url port value =
  enc ← encodeURIComponent (sheetName value);
  Some (API_BASE port ++ js "/match-columns?sheet_name=" ++ enc
        ++ js "&esg_sheet_name=%E0%B9%80%E0%B8%87%E0%B8%B4%E0%B8%99%E0%B8%A3%E0%B8%B2%E0%B8%87%E0%B8%A7%E0%B8%B1%E0%B8%A5%E0%B9%80%E0%B8%A3%E0%B8%B5%E0%B8%A2%E0%B8%81%E0%B9%80%E0%B8%81%E0%B9%87%E0%B8%9A%20ESG&esg_cols=2%2C3%2C5%2C6%2C8%2C14%2C15&tax_cols=1%2C2%2C4%2C5%2C7%2C13%2C14&match_key_col=3&case_sensitive=true").
Proof.
  unfold url. generalize (encodeURIComponent (sheetName value)).
  intros [enc|]; [|reflexivity].
  destruct fixed_parameters_encoded as (-> & -> & ->).
  cbn [mbind option_bind]. do 4 f_equal.
Qed.

Lemma sheetName_units value :
  forallb isCodeUnit value = true ->
  forallb isCodeUnit (sheetName value) = true.
Proof.
  intros Hv. unfold sheetName. case_bool_decide as Hnil; [by vm_compute|].
  destruct (trim_split value) as (p & q & Hsplit & _).
  rewrite Hsplit, !forallb_app in Hv.
  by apply andb_prop in Hv as [_ [Htrim _]%andb_prop].
Qed.

(** The URL of a request is the base for the port, the path, and six
    parameters of which only [sheet_name] varies with the input; whatever
    the user types, the query keeps its five separators, six equal signs
    and single question mark, and holds no fragment mark and no space. *)
Theorem url_parameters port value u :
  forallb isCodeUnit value = true ->
  url port value = Some u ->
  (exists enc,
     encodeURIComponent (sheetName value) = Some enc /\
     u = API_BASE port ++ js "/match-columns?sheet_name=" ++ enc
         ++ js "&esg_sheet_name=%E0%B9%80%E0%B8%87%E0%B8%B4%E0%B8%99%E0%B8%A3%E0%B8%B2%E0%B8%87%E0%B8%A7%E0%B8%B1%E0%B8%A5%E0%B9%80%E0%B8%A3%E0%B8%B5%E0%B8%A2%E0%B8%81%E0%B9%80%E0%B8%81%E0%B9%87%E0%B8%9A%20ESG&esg_cols=2%2C3%2C5%2C6%2C8%2C14%2C15&tax_cols=1%2C2%2C4%2C5%2C7%2C13%2C14&match_key_col=3&case_sensitive=true") /\
  occ 38 u = 5%nat /\ occ 61 u = 6%nat /\ occ 63 u = 1%nat /\
  occ 35 u = 0%nat /\ occ 32 u = 0%nat.
Proof.
  intros Hunits Hu. rewrite url_shape in Hu.
  destruct (encodeURIComponent (sheetName value)) as [enc|] eqn:Henc; [|done].
  apply (inj Some) in Hu. subst u.
  assert (forallb isEncoded enc = true) as Hsafe.
  { apply (encodeURIComponent_encoded_aux (length (sheetName value))
             (sheetName value)); [lia | | done].
    apply Forall_forall. intros c Hc.
    pose proof (sheetName_units _ Hunits) as Hs. rewrite forallb_forall in Hs.
    apply N.ltb_lt, Hs. by apply list_elem_of_In. }
  split; [by exists enc|].
  rewrite !occ_app.
  rewrite !(occ_not_encoded _ enc) by (done || by vm_compute).
  unfold API_BASE. case_bool_decide; count_literals; by vm_compute.
Qed.

Lemma url_parameters_witness :
  exists u, url (js "3000") (js "a&b=c") = Some u /\ occ 38 u = 5%nat.
Proof.
  destruct (url (js "3000") (js "a&b=c")) as [u|] eqn:Hu; [|by vm_compute in Hu].
  exists u. split; [done|].
  apply (url_parameters (js "3000") (js "a&b=c") u); [|done].
  by vm_compute.
Defined.

(** ** When the URL cannot be built *)

Lemma sheetName_plain value :
  forallb notSurrogate value = true ->
  forallb notSurrogate (sheetName value) = true.
Proof.
  intros Hv. unfold sheetName. case_bool_decide as Hnil; [by vm_compute|].
  destruct (trim_split value) as (p & q & Hsplit & _).
  rewrite Hsplit, !forallb_app in Hv.
  by apply andb_prop in Hv as [_ [Htrim _]%andb_prop].
Qed.

(** The URL is built before the [try]: when the sheet name cannot be
    encoded, [callMatch] ends with that exception before any request, and
    leaves the button disabled and the status at loading, with nothing to
    undo it.  A sheet name without surrogate code units can always be
    encoded. *)
Theorem callMatch_url_throws esg_file tax_file port value fetch d :
  (url port value = None ->
   callMatch (Some esg_file) (Some tax_file) port value fetch d =
   (None, loading d)) /\
  (url port value = None <-> encodeURIComponent (sheetName value) = None) /\
  (forallb notSurrogate value = true -> is_Some (url port value)).
Proof.
  repeat split.
  - intros Hu. unfold callMatch, mbind, M_bind, assign, eval. simpl.
    by rewrite Hu.
  - rewrite url_shape. by destruct (encodeURIComponent (sheetName value)).
  - intros Henc. rewrite url_shape, Henc. done.
  - intros Hv. rewrite url_shape.
    by destruct (encodeURIComponent_plain _ (sheetName_plain _ Hv)) as [enc ->].
Qed.

Lemma callMatch_url_throws_witness :
  callMatch (Some file0) (Some file0) (js "8000") [55296]
    (fun _ _ _ => FetchThrows) display0 =
  (None, mkDom true (js "status loading") (js "กำลังเทียบข้อมูล...") [] [] []
           true).
Proof.
  rewrite (proj1 (callMatch_url_throws file0 file0 (js "8000") [55296]
                    (fun _ _ _ => FetchThrows) display0));
    by vm_compute.
Defined.

(** ** The outcome of a request *)

Lemma tryCatchFinally_enables B d :
  btnMatch_disabled (tryCatchFinally B catchBlock finallyBlock d).2 = false.
Proof. unfold tryCatchFinally. by destruct (B d) as [[[]|] d']. Qed.

Ltac run_showResult :=
  unfold showResult, mbind, M_bind, assign, eval; simpl;
  repeat match goal with
  | H : ?e = _ |- context [?e] => rewrite H; simpl
  end.

Lemma showResult_success data d sh th bh :
  renderAll data = Some (sh, th, bh) ->
  showResult data d =
  (Some tt, mkDom (btnMatch_disabled d) (js "status success")
              (js "เทียบข้อมูลเสร็จแล้ว") sh th bh false).
Proof.
  unfold renderAll. intros H.
  destruct (getProp data (js "column_labels")) as [cl|] eqn:Hcl; [|done].
  destruct (getProp data (js "match_key_label")) as [mkl|] eqn:Hmkl; [|done].
  destruct (getProp data (js "summary")) as [sm|] eqn:Hsm; [|done].
  destruct (getProp data (js "results")) as [rs|] eqn:Hrs; [|done].
  cbn [mbind option_bind] in H.
  destruct (renderSummary sm mkl) as [sh'|] eqn:Hs; [|done].
  destruct (renderThead cl) as [th'|] eqn:Ht; [|done].
  destruct (renderBody rs) as [bh'|] eqn:Hb; [|done].
  injection H as -> -> ->. by run_showResult.
Qed.

Lemma showResult_failure data d :
  renderAll data = None ->
  exists sh th,
    showResult data d =
    (None, mkDom (btnMatch_disabled d) (js "status success")
             (js "เทียบข้อมูลเสร็จแล้ว") sh th (resultBody_innerHTML d)
             (resultSection_hidden d)).
Proof.
  unfold renderAll. intros H.
  destruct (getProp data (js "column_labels")) as [cl|] eqn:Hcl;
    [|run_showResult; by eexists _, _].
  destruct (getProp data (js "match_key_label")) as [mkl|] eqn:Hmkl;
    [|run_showResult; by eexists _, _].
  destruct (getProp data (js "summary")) as [sm|] eqn:Hsm;
    [|run_showResult; by eexists _, _].
  destruct (getProp data (js "results")) as [rs|] eqn:Hrs;
    [|run_showResult; by eexists _, _].
  cbn [mbind option_bind] in H.
  destruct (renderSummary sm mkl) as [sh'|] eqn:Hs;
    [|run_showResult; by eexists _, _].
  destruct (renderThead cl) as [th'|] eqn:Ht;
    [|run_showResult; by eexists _, _].
  destruct (renderBody rs) as [bh'|] eqn:Hb; [done|].
  run_showResult. by eexists _, _.
Qed.

Lemma resume_success_response json d :
  let d' := (tryCatchFinally (tryBlock (Response true json)) catchBlock
               finallyBlock d).2 in
  match renderAll (default (VObj ∅) json) with
  | Some (summaryHtml, theadHtml, bodyHtml) =>
    d' = mkDom false (js "status success") (js "เทียบข้อมูลเสร็จแล้ว")
           summaryHtml theadHtml bodyHtml false
  | None =>
    exists summaryHtml theadHtml,
      d' = mkDom false (js "status error") (js "เชื่อมต่อ API ไม่ได้")
             summaryHtml theadHtml (resultBody_innerHTML d)
             (resultSection_hidden d)
  end.
Proof.
  unfold tryCatchFinally, tryBlock. cbn [negb].
  destruct (renderAll (default (VObj ∅) json)) as [[[sh th] bh]|] eqn:Hr.
  - by rewrite (showResult_success _ _ _ _ _ Hr).
  - destruct (showResult_failure _ d Hr) as (sh & th & ->).
    by exists sh, th.
Qed.

(** A response with a success status ends in one of two ways.  When the
    summary, the header and the body all render, the three elements hold
    that markup, the result section is shown and the status is the success
    text.  When any of them throws, the status is the connectivity error,
    and the body rows and the visibility of the result section are what
    they were.  Either way the button is enabled again. *)
Theorem success_response_outcome esg_file tax_file port value fetch u d json :
  url port value = Some u ->
  fetch u esg_file tax_file = Response true json ->
  let d' := (callMatch (Some esg_file) (Some tax_file) port value fetch d).2 in
  match renderAll (default (VObj ∅) json) with
  | Some (summaryHtml, theadHtml, bodyHtml) =>
    d' = mkDom false (js "status success") (js "เทียบข้อมูลเสร็จแล้ว")
           summaryHtml theadHtml bodyHtml false
  | None =>
    exists summaryHtml theadHtml,
      d' = mkDom false (js "status error") (js "เชื่อมต่อ API ไม่ได้")
             summaryHtml theadHtml (resultBody_innerHTML d)
             (resultSection_hidden d)
  end.
Proof.
  intros Hu Hf. rewrite (callMatch_requests _ _ _ _ _ _ _ Hu), Hf.
  apply (resume_success_response json (loading d)).
Qed.

Lemma success_response_outcome_witness :
  let body := obj [(js "summary", obj [(js "total_rows", VNum (integer 2));
                                       (js "all_match", VNum (integer 1));
                                       (js "has_mismatch", VNum (integer 1))]);
                   (js "column_labels", VArr [VStr (js "A")]);
                   (js "match_key_label", VStr (js "ID"));
                   (js "results", VArr [rowMatch; rowMismatch])] in
  let d' := (callMatch (Some file0) (Some file0) (js "8000") []
               (fun _ _ _ => Response true (Some body)) display0).2 in
  apiStatus_className d' = js "status success" /\
  resultSection_hidden d' = false /\ btnMatch_disabled d' = false.
Proof.
  intros body d'.
  destruct (url (js "8000") []) as [u|] eqn:Hu; [|by vm_compute in Hu].
  pose proof (success_response_outcome file0 file0 (js "8000") []
                (fun _ _ _ => Response true (Some body)) u display0
                (Some body) Hu eq_refl) as H.
  destruct (renderAll (default (VObj ∅) (Some body))) as [[[sh th] bh]|] eqn:Hr;
    [|by vm_compute in Hr].
  subst d'. cbv zeta in H. rewrite H.
  cbn [apiStatus_className resultSection_hidden btnMatch_disabled].
  repeat split.
Defined.

(** Whenever a request was made, [callMatch] ends without an exception,
    with the button enabled and the status at success or at error: the
    loading state never outlasts the request. *)
Theorem request_always_completes esg_file tax_file port value fetch u d :
  url port value = Some u ->
  let r := callMatch (Some esg_file) (Some tax_file) port value fetch d in
  r.1 = Some tt /\
  btnMatch_disabled r.2 = false /\
  (apiStatus_className r.2 = js "status success" \/
   apiStatus_className r.2 = js "status error").
Proof.
  intros Hu r. subst r. rewrite (callMatch_requests _ _ _ _ _ _ _ Hu).
  split; [|split; [apply tryCatchFinally_enables|]].
  - unfold tryCatchFinally.
    by destruct (tryBlock _ (loading d)) as [[[]|] d'].
  - destruct (fetch u esg_file tax_file) as [|[] json] eqn:Hf.
    + by right.
    + pose proof (resume_success_response json (loading d)) as H.
      cbv zeta in H.
      destruct (renderAll (default (VObj ∅) json)) as [[[sh th] bh]|].
      * left. by rewrite H.
      * right. destruct H as (sh & th & ->). done.
    + right. unfold tryCatchFinally, tryBlock. simpl.
      unfold mbind, M_bind, assign, eval. simpl.
      destruct (getProp (default (VObj ∅) json) (js "detail")) as [detail|];
        [|done].
      by destruct (ToString (or_else detail (VStr (js "เกิดข้อผิดพลาด")))).
Qed.

Lemma request_always_completes_witness :
  btnMatch_disabled
    (callMatch (Some file0) (Some file0) (js "8000") []
       (fun _ _ _ => Response true (Some (VArr [VNull]))) display0).2 = false.
Proof.
  destruct (url (js "8000") []) as [u|] eqn:Hu; [|by vm_compute in Hu].
  exact (proj1 (proj2 (request_always_completes file0 file0 (js "8000") []
                         (fun _ _ _ => Response true (Some (VArr [VNull]))) u
                         display0 Hu))).
Defined.

(** ** Which responses render *)

Lemma getProp_nullish r k : isNullish r = true -> getProp r k = None.
Proof. by destruct r. Qed.

Lemma Array_map_is_Some {B} (f : value -> nat -> option B) l :
  is_Some (Array_map f (VArr l)) <->
  (forall i v, l !! i = Some v -> is_Some (f v i)).
Proof.
  split.
  - intros [ys Hys] i v Hv.
    destruct (lookup_lt_is_Some_2 ys i) as [y Hy].
    { rewrite (Array_map_length _ _ _ Hys). by eapply lookup_lt_Some. }
    destruct (Array_map_lookup _ _ _ _ _ Hys Hy) as (v' & Hv' & Hf).
    rewrite Hv in Hv'. injection Hv' as <-. by eexists.
  - intros Hf. destruct (Array_map_total f l Hf) as [ys ->]. by eexists.
Qed.

Lemma fieldsPrimitive_lookup keys v k :
  fieldsPrimitive keys v = true -> k ∈ keys ->
  exists x, getProp v k = Some x /\ isPrimitive x = true.
Proof.
  intros H Hk. destruct v as [| |b|n|s|l|o]; try done; try (by eexists).
  simpl in H. rewrite forallb_forall in H. eexists. split; [done|].
  by apply H, list_elem_of_In.
Qed.

Lemma or_else_primitive a b :
  isPrimitive a = true -> isPrimitive b = true ->
  isPrimitive (or_else a b) = true.
Proof. unfold or_else. by destruct (ToBoolean a). Qed.

Lemma renderMismatch_renders m i :
  fieldsPrimitive [js "column_label"; js "esg_value"; js "tax_value"] m = true ->
  is_Some (renderMismatch m i).
Proof.
  intros Hm.
  destruct (fieldsPrimitive_lookup _ m (js "column_label") Hm)
    as (label & Hlabel & Hpl); [repeat constructor|].
  destruct (fieldsPrimitive_lookup _ m (js "esg_value") Hm)
    as (esg & Hesg & Hpe); [repeat constructor|].
  destruct (fieldsPrimitive_lookup _ m (js "tax_value") Hm)
    as (tax & Htax & Hpt); [repeat constructor|].
  destruct (escapeHtml_primitive label Hpl) as [tl Htl].
  destruct (escapeHtml_primitive (or_else esg (VStr (js "(ว่าง)"))))
    as [te Hte]; [by apply or_else_primitive|].
  destruct (escapeHtml_primitive (or_else tax (VStr (js "(ว่าง)"))))
    as [tt Htt]; [by apply or_else_primitive|].
  unfold renderMismatch. rewrite Hlabel. cbn [mbind option_bind].
  rewrite Htl. cbn [mbind option_bind]. rewrite Hesg. cbn [mbind option_bind].
  rewrite Hte. cbn [mbind option_bind]. rewrite Htax. cbn [mbind option_bind].
  rewrite Htt. by eexists.
Qed.

Lemma renderMismatch_nullish m i : isNullish m = true -> renderMismatch m i = None.
Proof.
  intros Hm. unfold renderMismatch.
  by rewrite (getProp_nullish m (js "column_label") Hm).
Qed.

Lemma cellList_renders r ve vt :
  getProp r (js "values_esg") = Some ve ->
  getProp r (js "values_tax") = Some vt ->
  primitiveArrayOrFalsy ve = true -> primitives vt = true ->
  is_Some (cellList r).
Proof.
  intros Hve Hvt Hpe Hpt. destruct (isArray ve) eqn:Harray.
  - destruct ve as [| | | | |l|]; try done.
    destruct (cellList_primitive r l vt Hve Hvt Hpe Hpt) as (cells & -> & _).
    by eexists.
  - rewrite (cellList_falsy r ve Hve); [by eexists|].
    destruct ve as [| | | | |l|]; try done; by apply negb_true_iff.
Qed.

Lemma mismatchHtml_renders r mm :
  getProp r (js "mismatches") = Some mm -> mismatchesRender mm = true ->
  is_Some (mismatchHtml r).
Proof.
  intros Hmm Hr. destruct mm as [| |b|n|s|[|m l]|o].
  - rewrite (mismatchHtml_falsy r _ Hmm); [by eexists | done].
  - rewrite (mismatchHtml_falsy r _ Hmm); [by eexists | done].
  - unfold mismatchHtml. rewrite Hmm. destruct b; by eexists.
  - unfold mismatchHtml. rewrite Hmm. destruct n; by eexists.
  - simpl in Hr. apply bool_decide_eq_true in Hr. subst s.
    rewrite (mismatchHtml_falsy r _ Hmm); [by eexists | done].
  - rewrite (mismatchHtml_empty r Hmm). by eexists.
  - rewrite (mismatchHtml_array r m l Hmm), fmap_is_Some.
    apply Array_map_is_Some. intros i x Hx. apply renderMismatch_renders.
    cbn [mismatchesRender] in Hr. rewrite forallb_forall in Hr. apply Hr.
    by apply list_elem_of_In, list_elem_of_lookup_2 with i.
  - unfold mismatchHtml. rewrite Hmm. cbn [mbind option_bind].
    change (or_else (VObj o) (VArr [])) with (VObj o).
    cbn [getLength mbind option_bind]. simpl in Hr.
    apply negb_true_iff in Hr. rewrite Hr. by eexists.
Qed.

Lemma renderRow_renders r i : rowRenders r = true -> is_Some (renderRow r i).
Proof.
  unfold rowRenders. intros H.
  destruct (getProp r (js "values_esg")) as [ve|] eqn:Hve; [|done].
  destruct (getProp r (js "values_tax")) as [vt|] eqn:Hvt; [|done].
  destruct (getProp r (js "mismatches")) as [mm|] eqn:Hmm; [|done].
  destruct (getProp r (js "row")) as [row|] eqn:Hrow; [|done].
  apply andb_true_iff in H as [H Hprow].
  apply andb_true_iff in H as [H Hpmm].
  apply andb_true_iff in H as [Hpve Hpvt].
  pose proof (getProp_Some_not_nullish r _ _ Hve) as Hr.
  destruct (getProp_not_nullish r (js "all_match") Hr) as [am Ham].
  destruct (cellList_renders r ve vt Hve Hvt Hpve Hpvt) as [cells Hcells].
  destruct (mismatchHtml_renders r mm Hmm Hpmm) as [mis Hmis].
  destruct (ToString_primitive row Hprow) as [ordinal Hordinal].
  unfold renderRow. rewrite Ham, Hcells, Hmis, Hrow.
  cbn [mbind option_bind fmap option_fmap option_map]. rewrite Hordinal.
  by eexists.
Qed.

Lemma renderRow_nullish r i : isNullish r = true -> renderRow r i = None.
Proof.
  intros Hr. unfold renderRow. by rewrite (getProp_nullish r (js "all_match") Hr).
Qed.

Lemma renderRow_cells_throw r i :
  cellList r = None -> renderRow r i = None.
Proof.
  intros Hcells. unfold renderRow. rewrite Hcells.
  by destruct (getProp r (js "all_match")).
Qed.

Lemma renderRow_mismatches_throw r i :
  mismatchHtml r = None -> renderRow r i = None.
Proof.
  intros Hmis. unfold renderRow. rewrite Hmis.
  destruct (getProp r (js "all_match")); [|done].
  by destruct (cellList r).
Qed.

Lemma renderBody_renders results :
  resultsRender results = true -> is_Some (renderBody results).
Proof.
  intros H. unfold renderBody. rewrite fmap_is_Some.
  destruct (isArray results) eqn:Harray.
  - destruct results as [| | | | |l|]; try done.
    change (or_else (VArr l) (VArr [])) with (VArr l).
    apply Array_map_is_Some. intros i r Hr. apply renderRow_renders.
    simpl in H. rewrite forallb_forall in H. apply H.
    by apply list_elem_of_In, list_elem_of_lookup_2 with i.
  - assert (ToBoolean results = false) as Hfalsy
      by (destruct results; try done; by apply negb_true_iff).
    unfold or_else. rewrite Hfalsy. by eexists.
Qed.

Lemma renderBody_null_row l r :
  r ∈ l -> isNullish r = true -> renderBody (VArr l) = None.
Proof.
  intros Hin Hr. unfold renderBody.
  change (or_else (VArr l) (VArr [])) with (VArr l).
  destruct (Array_map renderRow (VArr l)) as [hs|] eqn:Hhs; [|done].
  apply list_elem_of_lookup in Hin as [i Hi].
  destruct (proj1 (Array_map_is_Some renderRow l) (ex_intro _ hs Hhs) i r Hi)
    as [h Hh].
  by rewrite (renderRow_nullish r i Hr) in Hh.
Qed.

Lemma renderThead_renders column_labels :
  primitiveArrayOrFalsy column_labels = true ->
  is_Some (renderThead column_labels).
Proof.
  intros H. unfold renderThead.
  assert (is_Some (Array_map
            (fun x (_ : nat) =>
               label ← escapeHtml x; Some (js "<th>" ++ label ++ js "</th>"))
            (or_else column_labels (VArr [])))) as [ths ->];
    [|by eexists].
  destruct (isArray column_labels) eqn:Harray.
  - destruct column_labels as [| | | | |l|]; try done.
    change (or_else (VArr l) (VArr [])) with (VArr l).
    apply Array_map_is_Some. intros i x Hx.
    destruct (escapeHtml_primitive x) as [label ->]; [|by eexists].
    simpl in H. rewrite forallb_forall in H. apply H.
    by apply list_elem_of_In, list_elem_of_lookup_2 with i.
  - assert (ToBoolean column_labels = false) as Hfalsy
      by (destruct column_labels; try done; by apply negb_true_iff).
    unfold or_else. rewrite Hfalsy. by eexists.
Qed.

Lemma renderSummary_renders summary match_key_label :
  fieldsPrimitive [js "total_rows"; js "all_match"; js "has_mismatch"] summary
    = true ->
  isPrimitive match_key_label = true ->
  is_Some (renderSummary summary match_key_label).
Proof.
  intros Hs Hl.
  destruct (fieldsPrimitive_lookup _ summary (js "total_rows") Hs)
    as (total & Htotal & Hpt); [repeat constructor|].
  destruct (fieldsPrimitive_lookup _ summary (js "all_match") Hs)
    as (matching & Hmatching & Hpm); [repeat constructor|].
  destruct (fieldsPrimitive_lookup _ summary (js "has_mismatch") Hs)
    as (mismatching & Hmismatching & Hph); [repeat constructor|].
  destruct (ToString_primitive total Hpt) as [t Ht].
  destruct (ToString_primitive matching Hpm) as [a Ha].
  destruct (ToString_primitive mismatching Hph) as [m Hm].
  destruct (escapeHtml_primitive (or_else match_key_label (VStr (js "เลขถัง"))))
    as [label Hlabel]; [by apply or_else_primitive|].
  unfold renderSummary. rewrite Htotal. cbn [mbind option_bind].
  rewrite Ht. cbn [mbind option_bind]. rewrite Hmatching.
  cbn [mbind option_bind]. rewrite Ha. cbn [mbind option_bind].
  rewrite Hmismatching. cbn [mbind option_bind]. rewrite Hm.
  cbn [mbind option_bind]. rewrite Hlabel. by eexists.
Qed.

Lemma renderSummary_nullish summary match_key_label :
  isNullish summary = true -> renderSummary summary match_key_label = None.
Proof.
  intros Hs. unfold renderSummary.
  by rewrite (getProp_nullish summary (js "total_rows") Hs).
Qed.

Lemma renderAll_renders data :
  responseRenders data = true -> is_Some (renderAll data).
Proof.
  unfold responseRenders, renderAll. intros H.
  destruct (getProp data (js "column_labels")) as [cl|]; [|done].
  destruct (getProp data (js "match_key_label")) as [mkl|]; [|done].
  destruct (getProp data (js "summary")) as [sm|]; [|done].
  destruct (getProp data (js "results")) as [rs|]; [|done].
  apply andb_true_iff in H as [H Hrs].
  apply andb_true_iff in H as [H Hcl].
  apply andb_true_iff in H as [Hsm Hmkl].
  cbn [mbind option_bind].
  destruct (renderSummary_renders sm mkl Hsm Hmkl) as [sh ->].
  destruct (renderThead_renders cl Hcl) as [th ->].
  destruct (renderBody_renders rs Hrs) as [bh ->].
  by eexists.
Qed.

Lemma renderAll_null_row data l r :
  getProp data (js "results") = Some (VArr l) ->
  r ∈ l -> isNullish r = true -> renderAll data = None.
Proof.
  intros Hrs Hin Hr. unfold renderAll. rewrite Hrs.
  destruct (getProp data (js "column_labels")) as [cl|]; [|done].
  destruct (getProp data (js "match_key_label")) as [mkl|]; [|done].
  destruct (getProp data (js "summary")) as [sm|]; [|done].
  cbn [mbind option_bind]. rewrite (renderBody_null_row l r Hin Hr).
  destruct (renderSummary sm mkl); [|done].
  by destruct (renderThead cl).
Qed.

(** A response with a success status whose values are primitives, as the
    service sends them, is shown: when it has a [summary] with primitive
    counts, a primitive match-key label, column labels that are an array of
    primitives (or are missing) and results that are an array of rows that
    render (or are missing), the status is the success text and the result
    section is shown.  A [null] among the results ends in the connectivity
    error. *)
Theorem primitive_response_succeeds esg_file tax_file port value fetch u d json :
  url port value = Some u ->
  fetch u esg_file tax_file = Response true json ->
  let d' := (callMatch (Some esg_file) (Some tax_file) port value fetch d).2 in
  (responseRenders (default (VObj ∅) json) = true ->
   apiStatus_className d' = js "status success" /\
   apiStatus_textContent d' = js "เทียบข้อมูลเสร็จแล้ว" /\
   resultSection_hidden d' = false /\ btnMatch_disabled d' = false) /\
  (forall l r,
     getProp (default (VObj ∅) json) (js "results") = Some (VArr l) ->
     r ∈ l -> isNullish r = true ->
     apiStatus_className d' = js "status error" /\
     apiStatus_textContent d' = js "เชื่อมต่อ API ไม่ได้").
Proof.
  intros Hu Hf d'.
  pose proof (resume_success_response json (loading d)) as H.
  cbv zeta in H. subst d'.
  rewrite (callMatch_requests _ _ _ _ _ _ _ Hu), Hf. split.
  - intros Hrenders.
    destruct (renderAll_renders _ Hrenders) as [[[sh th] bh] Hr].
    rewrite Hr in H. by rewrite H.
  - intros l r Hrs Hin Hr.
    rewrite (renderAll_null_row _ l r Hrs Hin Hr) in H.
    by destruct H as (sh & th & ->).
Qed.

Lemma primitive_response_succeeds_witness :
  let body := obj [(js "summary", obj [(js "total_rows", VNum (integer 2));
                                       (js "all_match", VNum (integer 1));
                                       (js "has_mismatch", VNum (integer 1))]);
                   (js "column_labels", VArr [VStr (js "A")]);
                   (js "match_key_label", VStr (js "ID"));
                   (js "results", VArr [rowMatch; rowMismatch])] in
  apiStatus_className
    (callMatch (Some file0) (Some file0) (js "8000") []
       (fun _ _ _ => Response true (Some body)) display0).2
  = js "status success".
Proof.
  intros body.
  destruct (url (js "8000") []) as [u|] eqn:Hu; [|by vm_compute in Hu].
  apply (proj1 (primitive_response_succeeds file0 file0 (js "8000") []
                  (fun _ _ _ => Response true (Some body)) u display0
                  (Some body) Hu eq_refl)).
  by vm_compute.
Defined.

(** A row whose values are primitives renders: it is not [null], its
    [values_esg] is an array of primitives or falsy, its [values_tax] is a
    primitive or an array of primitives, its [mismatches] are falsy, without
    a truthy [length], or an array of entries that are not [null] and hold
    primitives, and its ordinal is a primitive.  Rendering a row throws when
    the row is [null], when [values_esg] is truthy and no array, when an
    entry of [mismatches] is [null], and when a cell value cannot be
    converted to a string. *)
Theorem primitive_row_renders r i :
  (rowRenders r = true -> is_Some (renderRow r i)) /\
  (isNullish r = true -> renderRow r i = None) /\
  (forall ve, getProp r (js "values_esg") = Some ve ->
     ToBoolean ve = true -> isArray ve = false -> renderRow r i = None) /\
  (forall l m, getProp r (js "mismatches") = Some (VArr l) ->
     m ∈ l -> isNullish m = true -> renderRow r i = None) /\
  (forall ve v, getProp r (js "values_esg") = Some (VArr ve) ->
     v ∈ ve -> escapeHtml v = None -> renderRow r i = None).
Proof.
  repeat apply conj.
  - apply renderRow_renders.
  - apply renderRow_nullish.
  - intros ve Hve Htruthy Harray. apply renderRow_cells_throw.
    unfold cellList. rewrite Hve. cbn [mbind option_bind].
    unfold or_else. rewrite Htruthy. by destruct ve.
  - intros l m Hmm Hin Hm. apply renderRow_mismatches_throw.
    destruct l as [|m0 l]; [by apply elem_of_nil in Hin|].
    rewrite (mismatchHtml_array r m0 l Hmm).
    destruct (Array_map renderMismatch (VArr (m0 :: l))) as [ys|] eqn:Hys;
      [|done].
    apply list_elem_of_lookup in Hin as [j Hj].
    destruct (proj1 (Array_map_is_Some renderMismatch (m0 :: l))
                (ex_intro _ ys Hys) j m Hj) as [y Hy].
    by rewrite (renderMismatch_nullish m j Hm) in Hy.
  - intros ve v Hve Hin Hv. apply renderRow_cells_throw.
    rewrite (cellList_array r ve Hve).
    destruct (Array_map (renderCell r) (VArr ve)) as [cells|] eqn:Hcells;
      [|done].
    apply list_elem_of_lookup in Hin as [j Hj].
    destruct (proj1 (Array_map_is_Some (renderCell r) ve)
                (ex_intro _ cells Hcells) j v Hj) as [c Hc].
    destruct (renderCell_shape r v j c Hc) as (ok & tv & text & _ & _ & Ht & _).
    congruence.
Qed.

Lemma primitive_row_renders_witness :
  is_Some (renderRow rowMismatch 1) /\
  renderRow (obj [(js "values_esg", VArr [unprintable])]) 0 = None.
Proof.
  split.
  - apply (proj1 (primitive_row_renders rowMismatch 1)). by vm_compute.
  - apply (proj2 (proj2 (proj2 (proj2 (primitive_row_renders _ 0))))
             [unprintable] unprintable); [by vm_compute | by left | by vm_compute].
Defined.

(** ** The page and its events *)

Lemma resume_keeps_visible outcome d :
  resultSection_hidden d = false ->
  resultSection_hidden
    (tryCatchFinally (tryBlock outcome) catchBlock finallyBlock d).2 = false.
Proof.
  intros Hd. unfold tryCatchFinally, tryBlock.
  destruct outcome as [|[] json]; [done| |]; cbn [negb].
  - destruct (renderAll (default (VObj ∅) json)) as [[[sh th] bh]|] eqn:Hr.
    + by rewrite (showResult_success _ _ _ _ _ Hr).
    + by destruct (showResult_failure _ d Hr) as (sh & th & ->).
  - unfold mbind, M_bind, assign, eval. simpl.
    destruct (getProp (default (VObj ∅) json) (js "detail")) as [detail|];
      [|done].
    by destruct (ToString (or_else detail (VStr (js "เกิดข้อผิดพลาด")))).
Qed.

Lemma step_keeps_visible port p ev :
  resultSection_hidden (display p) = false ->
  resultSection_hidden (display (step port p ev)) = false.
Proof.
  intros Hp. destruct ev as [files|files|v| |o]; simpl; try done.
  - destruct (btnMatch_disabled (display p)); [done|].
    unfold callMatchStart.
    destruct (head (esgInput_files p)), (head (taxInput_files p)); try done.
    by destruct (url port (sheetNameInput_value p)).
  - destruct (pending p); [done|]. by apply resume_keeps_visible.
Qed.

(** Once the result section is shown, no event hides it again: not a new
    choice of files, not a click, and not a request that fails. *)
Theorem visible_stays_visible port events p :
  resultSection_hidden (display p) = false ->
  resultSection_hidden (display (run port p events)) = false.
Proof.
  unfold run. revert p. induction events as [|ev events IH]; intros p Hp.
  - done.
  - simpl. by apply IH, step_keeps_visible.
Qed.

Lemma visible_stays_visible_witness :
  let shown := set_display (set_resultSection_hidden false display0) page0 in
  resultSection_hidden
    (display (run (js "8000") shown
                [EsgChange [file0]; TaxChange [file0]; Click;
                 Settle FetchThrows])) = false.
Proof.
  intros shown.
  exact (visible_stays_visible (js "8000")
           [EsgChange [file0]; TaxChange [file0]; Click; Settle FetchThrows]
           shown eq_refl).
Defined.

Lemma checkCanMatch_disabled p :
  btnMatch_disabled (display (checkCanMatch p)) =
  negb (bool_decide (is_Some (head (esgInput_files p)))
        && bool_decide (is_Some (head (taxInput_files p)))).
Proof.
  unfold checkCanMatch. cbn [display set_display btnMatch_disabled
                              set_btnMatch_disabled].
  by destruct (esgInput_files p), (taxInput_files p).
Qed.

Lemma both_decided (P Q : Prop) `{Decision P, Decision Q} :
  negb (bool_decide P && bool_decide Q) = false <-> P /\ Q.
Proof.
  rewrite negb_false_iff, andb_true_iff, !bool_decide_eq_true. done.
Qed.

(** After a choice of files in either input, the label of that input shows
    the name of its first file, or the placeholder when it has none, and
    the button is enabled exactly when both inputs have a file, which is
    when a click sends a request or fails on the URL rather than
    returning at once. *)
Theorem change_sets_label_and_button port p files :
  let pe := step port p (EsgChange files) in
  let pt := step port p (TaxChange files) in
  esgName_textContent pe =
    match head files with Some f => name f | None => js "ยังไม่ได้เลือก" end /\
  taxName_textContent pt =
    match head files with Some f => name f | None => js "ยังไม่ได้เลือก" end /\
  (btnMatch_disabled (display pe) = false <->
   is_Some (head files) /\ is_Some (head (taxInput_files p))) /\
  (btnMatch_disabled (display pt) = false <->
   is_Some (head (esgInput_files p)) /\ is_Some (head files)) /\
  (btnMatch_disabled (display pe) = false ->
   display (step port pe Click) = loading (display pe)) /\
  taxName_textContent pe = taxName_textContent p /\
  esgName_textContent pt = esgName_textContent p.
Proof.
  intros pe pt. subst pe pt. cbn [step].
  unfold onEsgChange, onTaxChange. rewrite !checkCanMatch_disabled.
  unfold setFileName.
  cbn [esgInput_files taxInput_files set_esgInput_files set_taxInput_files
       set_esgName_textContent set_taxName_textContent].
  rewrite !both_decided.
  split; [done|]. split; [done|]. split; [done|]. split; [done|].
  split; [|done].
  intros Hboth. rewrite (proj2 (both_decided _ _) Hboth).
  destruct Hboth as [[e He] [t Ht]].
  set (pe := checkCanMatch _). unfold callMatchStart.
  assert (head (esgInput_files pe) = Some e) as -> by done.
  assert (head (taxInput_files pe) = Some t) as -> by done.
  by destruct (url port (sheetNameInput_value pe)).
Qed.

Lemma change_sets_label_and_button_witness :
  let pe := run (js "8000") page0 [TaxChange [file0]; EsgChange [file0]] in
  esgName_textContent pe = js "a.xlsx" /\
  display (step (js "8000") pe Click) = loading (display pe).
Proof.
  pose proof (change_sets_label_and_button (js "8000")
                (step (js "8000") page0 (TaxChange [file0])) [file0])
    as (Hname & _ & Hbutton & _ & Hclick & _).
  split; [exact Hname|].
  apply Hclick, Hbutton. split; by eexists.
Defined.

Lemma step_labelsShown port p ev : labelsShown p -> labelsShown (step port p ev).
Proof.
  intros Hshown. pose proof Hshown as [He Ht].
  destruct ev as [files|files|v| |o]; cbn [step].
  - by split.
  - by split.
  - by split.
  - destruct (btnMatch_disabled (display p)); [done|].
    unfold callMatchStart.
    destruct (head (esgInput_files p)), (head (taxInput_files p)); try done.
    by destruct (url port (sheetNameInput_value p)).
  - by destruct (pending p).
Qed.

(** Along every sequence of events, each of the two labels shows the name
    of the first file of its input, or the placeholder when the input is
    empty: the labels never go out of step with the files, whatever
    requests start and end in between. *)
Theorem labels_follow_files port events p :
  labelsShown p -> labelsShown (run port p events).
Proof.
  unfold run. revert p. induction events as [|ev events IH]; intros p Hp.
  - done.
  - simpl. by apply IH, step_labelsShown.
Qed.

Lemma labels_follow_files_witness :
  labelsShown (run (js "8000") (set_esgName_textContent (js "ยังไม่ได้เลือก")
                     (set_taxName_textContent (js "ยังไม่ได้เลือก") page0))
                 [EsgChange [file0]; Click; TaxChange [file0]; Click;
                  Settle FetchThrows; EsgChange []]).
Proof.
  apply labels_follow_files. split; by vm_compute.
Defined.

(** ** One request at a time *)

Lemma step_oneRequest port p ev :
  isChange ev = false -> oneRequest p -> oneRequest (step port p ev).
Proof.
  intros Hev Hone. pose proof Hone as [Hle Hdis].
  destruct ev as [files|files|v| |o]; [done | done | by split | |]; cbn [step].
  - destruct (btnMatch_disabled (display p)) eqn:Hb; [done|].
    assert (pending p = 0%nat) as Hp.
    { destruct (pending p) as [|[|n]]; [done| |lia].
      specialize (Hdis eq_refl). congruence. }
    assert (oneRequest p) as Hinv by (split; [lia | by rewrite Hp]).
    unfold callMatchStart.
    destruct (head (esgInput_files p)), (head (taxInput_files p)); try done.
    destruct (url port (sheetNameInput_value p)); split; simpl;
      rewrite ?Hp; (lia || done).
  - destruct (pending p) as [|n] eqn:E; [done|].
    unfold callMatchResume. split; simpl; rewrite E; simpl; lia.
Qed.

(** As long as the choice of files is not changed in between, clicks start
    at most one request that is waited for: from a page without one, every
    sequence of clicks, typing and answers keeps at most one pending, and
    the button disabled while it is. *)
Theorem one_request_at_a_time port events p :
  forallb (fun ev => negb (isChange ev)) events = true ->
  pending p = 0%nat ->
  let p' := run port p events in
  (pending p' <= 1)%nat /\
  (pending p' = 1%nat -> btnMatch_disabled (display p') = true).
Proof.
  intros Hev Hp. assert (oneRequest p) as Hinv by (split; [lia | by rewrite Hp]).
  clear Hp. unfold run. revert p Hinv.
  induction events as [|ev events IH]; intros p Hinv; [done|].
  simpl in Hev. apply andb_prop in Hev as [Hev Hevs].
  simpl. apply IH; [done|]. apply step_oneRequest; [|done].
  by apply negb_true_iff.
Qed.

Lemma one_request_at_a_time_witness :
  pending (run (js "8000") pageReady [Click; Click; SheetNameInput (js "x"); Click])
  = 1%nat.
Proof.
  destruct (one_request_at_a_time (js "8000")
              [Click; Click; SheetNameInput (js "x"); Click] pageReady
              eq_refl eq_refl) as [Hle _].
  destruct (pending (run (js "8000") pageReady
                       [Click; Click; SheetNameInput (js "x"); Click]))
    as [|[|n]] eqn:E; [by vm_compute in E | done | lia].
Defined.

(** A change of files while a request is waited for enables the button
    again, and a second click then starts a second request. *)
Lemma second_request_after_change :
  pending (run (js "8000") pageReady [Click; EsgChange [file0]; Click]) = 2%nat.
Proof. by vm_compute. Qed.

(** The two halves of [callMatch], run one after the other, are
    [callMatch]. *)
Lemma callMatch_start_resume port p fetch esg_file tax_file u :
  head (esgInput_files p) = Some esg_file ->
  head (taxInput_files p) = Some tax_file ->
  url port (sheetNameInput_value p) = Some u ->
  display (callMatchResume (fetch u esg_file tax_file) (callMatchStart port p)) =
  (callMatch (Some esg_file) (Some tax_file) port (sheetNameInput_value p)
     fetch (display p)).2.
Proof.
  intros He Ht Hu. rewrite (callMatch_requests _ _ _ _ _ _ _ Hu).
  unfold callMatchStart, callMatchResume. by rewrite He, Ht, Hu.
Qed.

(** ** More on [escapeHtml] *)

Lemma escapeUnit_app_inj c d x y :
  escapeUnit c ++ x = escapeUnit d ++ y -> c = d /\ x = y.
Proof.
  unfold escapeUnit.
  destruct (N.eqb_spec c 38) as [->|?]; [|destruct (N.eqb_spec c 160) as [->|?];
    [|destruct (N.eqb_spec c 60) as [->|?];
      [|destruct (N.eqb_spec c 62) as [->|?]]]];
  (destruct (N.eqb_spec d 38) as [->|?]; [|destruct (N.eqb_spec d 160) as [->|?];
    [|destruct (N.eqb_spec d 60) as [->|?];
      [|destruct (N.eqb_spec d 62) as [->|?]]]]);
  intros H; vm_compute in H; try discriminate;
    try (injection H as ->; done);
    try (injection H as H; congruence);
    try (injection H as -> ->; done).
Qed.

Lemma escaped_injective s t : escaped s = escaped t -> s = t.
Proof.
  unfold escaped.
  revert t. induction s as [|c s IH]; intros [|d t] H; simpl in H.
  - done.
  - exfalso. unfold escapeUnit in H. by repeat case_match; vm_compute in H.
  - exfalso. unfold escapeUnit in H. by repeat case_match; vm_compute in H.
  - apply escapeUnit_app_inj in H as [-> H]. f_equal. by apply IH.
Qed.

(** [escapeHtml] loses nothing: two strings with the same escaped text are
    the same string. *)
Theorem escapeHtml_injective s t :
  escapeHtml (VStr s) = escapeHtml (VStr t) -> s = t.
Proof.
  rewrite !escapeHtml_string. intros H. apply (inj Some) in H.
  by apply escaped_injective.
Qed.

Lemma escapeHtml_injective_witness :
  escapeHtml (VStr (js "&lt;")) <> escapeHtml (VStr (js "<")).
Proof.
  intros H%escapeHtml_injective. by vm_compute in H.
Defined.

Lemma escapeUnit_quotes k c :
  k = 34 \/ k = 39 -> occ k (escapeUnit c) = occ k [c].
Proof.
  intros Hk. unfold escapeUnit.
  destruct (N.eqb_spec c 38) as [->|?]; [|destruct (N.eqb_spec c 160) as [->|?];
    [|destruct (N.eqb_spec c 60) as [->|?];
      [|destruct (N.eqb_spec c 62) as [->|?]]]];
    try done; destruct Hk as [-> | ->]; by vm_compute.
Qed.

Lemma escaped_quotes k s :
  k = 34 \/ k = 39 -> occ k (escaped s) = occ k s.
Proof.
  intros Hk. unfold escaped.
  induction s as [|c s IH]; [done|].
  change (flat_map escapeUnit (c :: s))
    with (escapeUnit c ++ flat_map escapeUnit s).
  rewrite occ_app, IH, escapeUnit_quotes by done. by rewrite <- occ_app.
Qed.

(** [escapeHtml] keeps every quote of a string, double or single.  So the
    markup of a mismatched cell, whose tooltip is put between double
    quotes, holds its four own double quotes and every double quote of the
    ESG value twice and of the tax value once. *)
Theorem quotes_are_kept :
  (forall k s, k = 34 \/ k = 39 ->
     exists h, escapeHtml (VStr s) = Some h /\ occ k h = occ k s) /\
  (forall r s i c ok tv,
     renderCell r (VStr s) i = Some c ->
     cellOk r i = Some ok -> ToBoolean ok = false ->
     cellTv r i = Some tv ->
     exists tax, ToString tv = Some tax /\
       occ 34 c = (4 + 2 * occ 34 s + occ 34 tax)%nat).
Proof.
  split.
  { intros k s Hk. exists (escaped s). split; [done|]. by apply escaped_quotes. }
  intros r s i c ok tv Hc Hok Hfalsy Htv.
  destruct (renderCell_shape _ _ _ _ Hc)
    as (ok' & tv' & text & Hok' & Htv' & Htext & Hshape).
  rewrite Hok in Hok'. injection Hok' as <-.
  rewrite Htv in Htv'. injection Htv' as <-.
  rewrite Hfalsy in Hshape. destruct Hshape as (esg & tax & Hesg & Htax & ->).
  rewrite escapeHtml_string in Htext. apply (inj Some) in Htext. subst text.
  cbn [ToString] in Hesg. apply (inj Some) in Hesg. subst esg.
  exists tax. split; [done|].
  rewrite !occ_app, !escaped_quotes by (by left).
  rewrite !occ_app. count_literals.
  replace (occ 34 dq) with 1%nat by (by vm_compute). lia.
Qed.

Lemma quotes_are_kept_witness :
  exists c, renderCell rowQuote (VStr quoted) 0 = Some c /\ occ 34 c = 8%nat.
Proof.
  destruct (renderCell rowQuote (VStr quoted) 0) as [c|] eqn:Hc;
    [|by vm_compute in Hc].
  exists c. split; [done|].
  destruct (proj2 quotes_are_kept rowQuote _ 0%nat c (VBool false)
              (VStr (js "y")) Hc) as (tax & Htax & ->); try (by vm_compute).
  apply (inj Some) in Htax. subst tax. by vm_compute.
Defined.

(** ** The body rows *)

(** The body is the markup of the rows of [results], one for each row and
    in their order, and it is there only when every row renders. *)
Theorem body_rows_in_order rows h :
  renderBody (VArr rows) = Some h <->
  exists hs, Forall2 (fun r rowHtml => renderRow r 0 = Some rowHtml) rows hs /\
             h = concat hs.
Proof.
  unfold renderBody. cbn [or_else ToBoolean].
  rewrite (Array_map_ext renderRow (fun v _ => renderRow v 0)) by done.
  rewrite Array_map_const. split.
  - destruct (mapM _ rows) as [hs|] eqn:Hhs; [|done].
    intros [= <-]. exists hs. split; [by apply mapM_Some_1|].
    apply join_nil_concat.
  - intros (hs & Hall & ->). apply mapM_Some_2 in Hall. rewrite Hall.
    simpl. by rewrite join_nil_concat.
Qed.
